(** * Bout Coordinator: the realtime state mirror of [src/index.tsx]

    A shallow embedding of the [BoutCoordinatorApp] component: its React
    state, the event handlers that mutate it, the three realtime
    notification handlers installed by [connectToSupabase], and the values
    derived at render time.

    Conventions.
    - A React handler closes over the state of the render it was created
      in and queues state updates.  A handler is a function from that
      render snapshot to an [Action]; an [Action] transforms the current
      state and lists the backend calls it issues, in order.
    - JavaScript numbers that hold counts are integers of [Z] (exact below
      2^53); the one place where the source leaves the integers, the
      occupancy percentage, is computed on binary64 values.
    - Strings are sequences of code units below 256. *)

From Stdlib Require Import ZArith List Lia Bool Ascii String.
From Stdlib Require Import Floats.SpecFloat.
From stdpp Require Import base strings gmap list pretty.
Import ListNotations.

Local Open Scope string_scope.
Local Open Scope list_scope.
Local Open Scope Z_scope.

(** ** JavaScript helpers *)

Module JS.

(** Truthiness of a string: only the empty string is falsy. *)
Definition truthy (s : string) : bool :=
  match s with
  | EmptyString => false
  | String _ _ => true
  end.

(** White space removed by [String.prototype.trim], restricted to code
    units below 256: TAB, LF, VT, FF, CR, SPACE and NBSP. *)
Definition is_white (c : ascii) : bool :=
  let n := nat_of_ascii c in
  ((9 <=? n)%nat && (n <=? 13)%nat) || (n =? 32)%nat || (n =? 160)%nat.

Fixpoint trimStart (s : string) : string :=
  match s with
  | EmptyString => EmptyString
  | String c r => if is_white c then trimStart r else s
  end.

Definition trimEnd (s : string) : string :=
  String.rev (trimStart (String.rev s)).

Definition trim (s : string) : string := trimEnd (trimStart s).

(** [s.padStart(n, c)] for a one-character pad [c]. *)
Definition padStart (n : nat) (c : ascii) (s : string) : string :=
  String.app (string_of_list_ascii (repeat c (n - String.length s))) s.

(** [n.toString()] for a natural number. *)
Definition toString (n : nat) : string := pretty n.

(** [Math.max] on integers. *)
Definition Math_max (a b : Z) : Z := Z.max a b.

(** [x || d] on numbers that are integers or NaN ([None]): 0 and NaN are
    falsy. *)
Definition num_or (x : option Z) (d : Z) : Z :=
  match x with
  | Some v => if v =? 0 then d else v
  | None => d
  end.

End JS.

(** ** Data model *)

(** [type Station]. *)
Inductive Station := MERCH | BEER | TICKETS | PRODUCTION | COORDINATOR.

Definition station_name (st : Station) : string :=
  match st with
  | MERCH => "MERCH"
  | BEER => "BEER"
  | TICKETS => "TICKETS"
  | PRODUCTION => "PRODUCTION"
  | COORDINATOR => "COORDINATOR"
  end.

Definition GRID_STATIONS : list Station := [MERCH; BEER; TICKETS; PRODUCTION].

(** [interface Message].  The [station] of a message is whatever string the
    sender put there ([operatorName as Station] is an unchecked cast). *)
Record Message := mkMessage {
  msg_id : Z;
  msg_time : string;
  msg_station : string;
  msg_text : string
}.

(** [interface UserPresence]. *)
Record UserPresence := mkPresence {
  presence_ref : string;
  device_id : string;
  role : string;
  online_at : string
}.

(** A row of [event_state] as a notification delivers it in [payload.new]:
    the two counters, and the WiFi columns, each of which may be
    [undefined] ([None]). *)
Record EventStateRow := mkRow {
  door_count : Z;
  row_capacity : Z;
  wifi_ssid : option string;
  wifi_pass : option string
}.

(** The argument of [from('event_state').update(...)]: the columns that
    are written. *)
Record EventStatePatch := mkPatch {
  set_door_count : option Z;
  set_capacity : option Z;
  set_wifi_ssid : option string;
  set_wifi_pass : option string
}.

Definition patch_door_count (n : Z) : EventStatePatch := mkPatch (Some n) None None None.
Definition patch_capacity (n : Z) : EventStatePatch := mkPatch None (Some n) None None.
Definition patch_wifi (ssid pass : string) : EventStatePatch :=
  mkPatch None None (Some ssid) (Some pass).

(** The handles kept in state; only their presence matters to the code. *)
Record SupabaseClient := mkClient { client_url : string; client_key : string }.
Record RealtimeChannel := mkChannel { topic : string }.

(** Calls that leave the component, in the order they are issued. *)
Inductive BackendCall :=
| UpdateEventState (p : EventStatePatch)
| InsertMessage (time station text : string)
| DeleteAllMessages
| RemoveAllChannels
| LocalStorageSet (key value : string)
| LocalStorageRemove (key : string)
| Track (dev role_ : string).

(** The [useState] cells of [BoutCoordinatorApp] that the handlers below
    read or write.  [configUrl], [configKey], [showWifiQr] and [qrDataUrl]
    are touched by none of them and are left out. *)
Record AppState := mkState {
  deviceId : string;
  operatorName : string;
  doorCount : Z;
  capacity : Z;
  messages : list Message;
  inputText : string;
  selectedStation : option Station;
  supabaseClient : option SupabaseClient;
  channel : option RealtimeChannel;
  isConnected : bool;
  showNetworkModal : bool;
  wifiSSID : string;
  wifiPass : string;
  otherCoordinatorOnline : bool;
  showResetView : bool;
  resetInputText : string;
  connectionError : string
}.

(** The state of the first render, for a device whose identifier is [dev]. *)
Definition initialState (dev : string) : AppState :=
  mkState dev "" 0 300 [] "" None None None false false "" "" false false "" "".

(** ** Actions: queued state updates and backend calls *)

Definition Action : Type := AppState -> AppState * list BackendCall.

Definition skip : Action := fun s => (s, []).

Definition and_then (a b : Action) : Action :=
  fun s =>
    let (s1, c1) := a s in
    let (s2, c2) := b s1 in
    (s2, c1 ++ c2).

Declare Scope action_scope.
Delimit Scope action_scope with action.
Bind Scope action_scope with Action.
Notation "a ;; b" := (and_then a%action b%action)
  (at level 100, b at level 200, right associativity) : action_scope.

Definition call (c : BackendCall) : Action := fun s => (s, [c]).

(** A handler is run on the state it was rendered from. *)
Definition run (h : AppState -> Action) (s : AppState) : AppState * list BackendCall :=
  h s s.

Definition state_after (h : AppState -> Action) (s : AppState) : AppState := fst (run h s).
Definition calls_of (h : AppState -> Action) (s : AppState) : list BackendCall := snd (run h s).

(** A notification handler is not tied to a render: it is applied to the
    state current at delivery. *)
Definition deliver (a : Action) (s : AppState) : AppState := fst (a s).

(** The state setters returned by [useState]. *)
Definition setOperatorName (v : string) : Action :=
  fun '(mkState a _ c d e f g h i j k l m n o p q) => (mkState a v c d e f g h i j k l m n o p q, []).
Definition setDoorCount (v : Z) : Action :=
  fun '(mkState a b _ d e f g h i j k l m n o p q) => (mkState a b v d e f g h i j k l m n o p q, []).
Definition setCapacity (v : Z) : Action :=
  fun '(mkState a b c _ e f g h i j k l m n o p q) => (mkState a b c v e f g h i j k l m n o p q, []).
Definition updMessages (u : list Message -> list Message) : Action :=
  fun '(mkState a b c d e f g h i j k l m n o p q) => (mkState a b c d (u e) f g h i j k l m n o p q, []).
Definition setMessages (v : list Message) : Action := updMessages (fun _ => v).
Definition setInputText (v : string) : Action :=
  fun '(mkState a b c d e _ g h i j k l m n o p q) => (mkState a b c d e v g h i j k l m n o p q, []).
Definition updSelectedStation (u : option Station -> option Station) : Action :=
  fun '(mkState a b c d e f g h i j k l m n o p q) => (mkState a b c d e f (u g) h i j k l m n o p q, []).
Definition setSelectedStation (v : option Station) : Action := updSelectedStation (fun _ => v).
Definition setSupabaseClient (v : option SupabaseClient) : Action :=
  fun '(mkState a b c d e f g _ i j k l m n o p q) => (mkState a b c d e f g v i j k l m n o p q, []).
Definition setChannel (v : option RealtimeChannel) : Action :=
  fun '(mkState a b c d e f g h _ j k l m n o p q) => (mkState a b c d e f g h v j k l m n o p q, []).
Definition setIsConnected (v : bool) : Action :=
  fun '(mkState a b c d e f g h i _ k l m n o p q) => (mkState a b c d e f g h i v k l m n o p q, []).
Definition setShowNetworkModal (v : bool) : Action :=
  fun '(mkState a b c d e f g h i j _ l m n o p q) => (mkState a b c d e f g h i j v l m n o p q, []).
Definition setWifiSSID (v : string) : Action :=
  fun '(mkState a b c d e f g h i j k _ m n o p q) => (mkState a b c d e f g h i j k v m n o p q, []).
Definition setWifiPass (v : string) : Action :=
  fun '(mkState a b c d e f g h i j k l _ n o p q) => (mkState a b c d e f g h i j k l v n o p q, []).
Definition setOtherCoordinatorOnline (v : bool) : Action :=
  fun '(mkState a b c d e f g h i j k l m _ o p q) => (mkState a b c d e f g h i j k l m v o p q, []).
Definition setShowResetView (v : bool) : Action :=
  fun '(mkState a b c d e f g h i j k l m n _ p q) => (mkState a b c d e f g h i j k l m n v p q, []).
Definition setResetInputText (v : string) : Action :=
  fun '(mkState a b c d e f g h i j k l m n o _ q) => (mkState a b c d e f g h i j k l m n o v q, []).
Definition setConnectionError (v : string) : Action :=
  fun '(mkState a b c d e f g h i j k l m n o p _) => (mkState a b c d e f g h i j k l m n o p v, []).

(** [if (supabaseClient) { await ... }]: the calls are issued only when the
    render snapshot holds a client. *)
Definition if_client (snap : AppState) (a : Action) : Action :=
  match supabaseClient snap with
  | Some _ => a
  | None => skip
  end.

(** ** Connection: hydration and the realtime handlers of [connectToSupabase] *)

(** The row read by the initial fetch; its WiFi columns are applied only
    when truthy. *)
Definition hydrate_state (stateData : option EventStateRow) : Action :=
  match stateData with
  | Some row =>
      (setDoorCount (door_count row) ;;
       setCapacity (row_capacity row) ;;
       match wifi_ssid row with
       | Some v => if JS.truthy v then setWifiSSID v else skip
       | None => skip
       end ;;
       match wifi_pass row with
       | Some v => if JS.truthy v then setWifiPass v else skip
       | None => skip
       end)%action
  | None => skip
  end.

(** [.order('created_at', { ascending: false }).limit(50)] on a table
    given in insertion order. *)
Definition recent_messages (table : list Message) : list Message :=
  firstn 50 (rev table).

(** [if (msgData) setMessages(msgData.reverse())]. *)
Definition hydrate_messages (msgData : option (list Message)) : Action :=
  match msgData with
  | Some rows => setMessages (rev rows)
  | None => skip
  end.

(** The [UPDATE] handler on [event_state]. *)
Definition on_event_state_update (newState : EventStateRow) : Action :=
  (setDoorCount (door_count newState) ;;
   setCapacity (row_capacity newState) ;;
   match wifi_ssid newState with
   | Some v => setWifiSSID v
   | None => skip
   end ;;
   match wifi_pass newState with
   | Some v => setWifiPass v
   | None => skip
   end)%action.

(** The [INSERT] handler on [messages]. *)
Definition on_message_insert (newMsg : Message) : Action :=
  updMessages (fun prev => prev ++ [newMsg]).

(** The test applied to each presence record by the sync handler. *)
Definition is_other_coordinator (self : string) (p : UserPresence) : bool :=
  String.eqb (role p) "COORDINATOR" && negb (String.eqb (device_id p) self).

(** The two nested [forEach] loops of the presence [sync] handler, over
    [Object.values(state)]; [bcFound] is the flag they assign. *)
Definition scan_presences (self : string) (presences : list UserPresence) (bcFound : bool) : bool :=
  fold_left (fun found p => if is_other_coordinator self p then true else found)
            presences bcFound.

Definition scan_state (self : string) (state : gmap string (list UserPresence)) : bool :=
  fold_left (fun found presences => scan_presences self presences found)
            (snd <$> map_to_list state) false.

Definition on_presence_sync (self : string) (state : gmap string (list UserPresence)) : Action :=
  setOtherCoordinatorOnline (scan_state self state).

(** The first lines of [connectToSupabase]: without both a URL and a key
    nothing is attempted. *)
Definition connect_guard (url key : string) (proceed : Action) : Action :=
  if negb (JS.truthy url) || negb (JS.truthy key)
  then setConnectionError "Please enter both URL and API Key"
  else proceed.

(** The [subscribe] callback on status [SUBSCRIBED], for the client and
    channel that [connectToSupabase] created from [url] and [key].
    [savedRole] is what [localStorage] holds under [derby_role].
    [envUrl] is [process.env?.SUPABASE_URL] read as a condition: [None]
    when there is no [process], in which case the expression throws and
    the callback ends after the track call, with nothing stored. *)
Definition on_subscribed (client : SupabaseClient) (newChannel : RealtimeChannel)
    (savedRole : option string) (envUrl : option bool) (snap : AppState) : Action :=
  (setIsConnected true ;;
   setSupabaseClient (Some client) ;;
   setChannel (Some newChannel) ;;
   setShowNetworkModal false ;;
   setConnectionError "" ;;
   call (Track (deviceId snap) (default "" savedRole)) ;;
   match envUrl with
   | Some false =>
       (call (LocalStorageSet "supabase_url" (client_url client)) ;;
        call (LocalStorageSet "supabase_key" (client_key client)))
   | Some true => skip
   | None => skip
   end)%action.

(** The [catch] of [connectToSupabase], for an error whose [message] is
    [message] ([None] when it has none). *)
Definition on_connect_error (message : option string) : Action :=
  (setConnectionError
     (match message with
      | Some m => if JS.truthy m then m else "Failed to connect. Check credentials."
      | None => "Failed to connect. Check credentials."
      end) ;;
   setIsConnected false)%action.

(** [disconnect]. *)
Definition disconnect (snap : AppState) : Action :=
  (if_client snap (call RemoveAllChannels) ;;
   setSupabaseClient None ;;
   setChannel None ;;
   setIsConnected false ;;
   call (LocalStorageRemove "supabase_url") ;;
   call (LocalStorageRemove "supabase_key") ;;
   setMessages [] ;;
   setDoorCount 0)%action.

(** ** Actions of the user *)

(** [handleDoorChange]. *)
Definition handleDoorChange (delta : Z) (snap : AppState) : Action :=
  let newCount := JS.Math_max 0 (doorCount snap + delta) in
  (setDoorCount newCount ;;
   if_client snap (call (UpdateEventState (patch_door_count newCount))))%action.

(** [handleCapacityChange]. *)
Definition handleCapacityChange (newCap : Z) (snap : AppState) : Action :=
  (setCapacity newCap ;;
   if_client snap (call (UpdateEventState (patch_capacity newCap))))%action.

(** [parseInt(s)] without a radix: leading white space, a sign, an
    optional [0x], then the longest run of digits; [None] is NaN.  The
    integer read is exact; the number the source gets is the double
    nearest to it, which is that integer up to 2^53. *)
Module ParseInt.

Definition digit (c : ascii) : option Z :=
  let n := Z.of_nat (nat_of_ascii c) in
  if (48 <=? n) && (n <=? 57) then Some (n - 48)
  else if (97 <=? n) && (n <=? 122) then Some (n - 87)
  else if (65 <=? n) && (n <=? 90) then Some (n - 55)
  else None.

Fixpoint digits (radix : Z) (s : string) (acc : option Z) : option Z :=
  match s with
  | EmptyString => acc
  | String c r =>
      match digit c with
      | Some v =>
          if v <? radix
          then digits radix r (Some (default 0 acc * radix + v))
          else acc
      | None => acc
      end
  end.

Definition unsigned (s : string) : option Z :=
  match s with
  | String "0" (String "x" r) | String "0" (String "X" r) => digits 16 r None
  | _ => digits 10 s None
  end.

Definition parseInt (s : string) : option Z :=
  match JS.trimStart s with
  | String "-" r => Z.opp <$> unsigned r
  | String "+" r => unsigned r
  | t => unsigned t
  end.

End ParseInt.

(** The [onChange] of the capacity input:
    [handleCapacityChange(Math.max(1, parseInt(e.target.value) || 0))]. *)
Definition capacity_onChange (value : string) (snap : AppState) : Action :=
  handleCapacityChange (JS.Math_max 1 (JS.num_or (ParseInt.parseInt value) 0)) snap.

(** [handleFullReset]. *)
Definition handleFullReset (snap : AppState) : Action :=
  if negb (String.eqb (resetInputText snap) "RESET") then skip
  else
    (if_client snap
       (call (UpdateEventState (patch_door_count 0)) ;;
        call DeleteAllMessages) ;;
     setDoorCount 0 ;;
     setMessages [] ;;
     setShowResetView false ;;
     setResetInputText "" ;;
     setShowNetworkModal false)%action.

(** [handleClaimBC]. *)
Definition handleClaimBC (snap : AppState) : Action :=
  (setOperatorName "Bout Coordinator" ;;
   setSelectedStation None)%action.

(** [handleRoleSelect], on the value of the selected option. *)
Definition handleRoleSelect (role_ : string) (snap : AppState) : Action :=
  if negb (JS.truthy role_) then skip
  else if String.eqb role_ "COORDINATOR" then handleClaimBC snap
  else (setOperatorName role_ ;; setSelectedStation None)%action.

(** [handleRelease]. *)
Definition handleRelease (snap : AppState) : Action :=
  (setOperatorName "" ;; setSelectedStation None)%action.

Definition Station_eqb (a b : Station) : bool :=
  match a, b with
  | MERCH, MERCH | BEER, BEER | TICKETS, TICKETS
  | PRODUCTION, PRODUCTION | COORDINATOR, COORDINATOR => true
  | _, _ => false
  end.

(** [handleStationClick]. *)
Definition handleStationClick (station : Station) (snap : AppState) : Action :=
  if String.eqb (operatorName snap) "Bout Coordinator"
  then updSelectedStation (fun prev =>
         match prev with
         | Some st => if Station_eqb st station then None else Some station
         | None => Some station
         end)
  else skip.

(** The two readings of [new Date()] that [handleSendMessage] uses. *)
Record Date := mkDate { getHours : nat; getMinutes : nat }.

Definition timeStr (now : Date) : string :=
  let hours := getHours now in
  let minutes := getMinutes now in
  let ampm := if (12 <=? hours)%nat then "PM" else "AM" in
  let hour12 := match (hours mod 12)%nat with O => 12%nat | h => h end in
  String.app (JS.toString hour12)
    (String.app ":"
       (String.app (JS.padStart 2 "0" (JS.toString minutes))
          (String.app " " ampm))).

(** The [sender] chosen by [handleSendMessage]. *)
Definition sender_of (snap : AppState) : string :=
  if String.eqb (operatorName snap) "Bout Coordinator"
  then match selectedStation snap with
       | Some st => station_name st
       | None => "COORDINATOR"
       end
  else operatorName snap.

(** [handleSendMessage] (after [e.preventDefault()]). *)
Definition handleSendMessage (now : Date) (snap : AppState) : Action :=
  if negb (JS.truthy (JS.trim (inputText snap))) then skip
  else
    (setInputText "" ;;
     if_client snap
       (call (InsertMessage (timeStr now) (sender_of snap) (JS.trim (inputText snap)))))%action.

(** [handleWifiSave]. *)
Definition handleWifiSave (snap : AppState) : Action :=
  if_client snap (call (UpdateEventState (patch_wifi (wifiSSID snap) (wifiPass snap)))).

(** The presence half of the effect on [operatorName, channel, deviceId]:
    the role announced to the room is [operatorName]. *)
Definition presence_track_effect (snap : AppState) : Action :=
  match channel snap with
  | Some _ => call (Track (deviceId snap) (operatorName snap))
  | None => skip
  end.

(** ** Values derived at render time *)

Definition isOverCapacity (s : AppState) : bool := capacity s <? doorCount s.
Definition isAssigned (s : AppState) : bool :=
  (0 <? String.length (JS.trim (operatorName s)))%nat.
Definition isCoordinator (s : AppState) : bool :=
  String.eqb (operatorName s) "Bout Coordinator".

(** [getLastMessage]. *)
Definition getLastMessage (station : Station) (s : AppState) : option Message :=
  let stationMsgs :=
    filter (fun m => msg_station m = station_name station) (messages s) in
  last stationMsgs.

(** ** The occupancy percentage, on binary64 numbers *)

Module Double.

Definition prec : Z := 53.
Definition emax : Z := 1024.

(** The double nearest to an integer (the integer itself below 2^53). *)
Definition of_Z (z : Z) : spec_float := binary_normalize prec emax z 0 false.

Definition div : spec_float -> spec_float -> spec_float := SFdiv prec emax.
Definition mul : spec_float -> spec_float -> spec_float := SFmul prec emax.

(** [Math.round]: the integer nearest to [x], ties towards +infinity;
    [floor (x + 1/2)] computed exactly.  Zeros, infinities, NaN and
    values without a fractional part are returned as they are; a result
    of zero keeps the sign of [x]. *)
Definition Math_round (x : spec_float) : spec_float :=
  match x with
  | S754_finite s m e =>
      if 0 <=? e then x
      else
        let num := cond_Zopp s (Zpos m) in
        let den := 2 ^ (- e) in
        binary_normalize prec emax ((2 * num + den) / (2 * den)) 0 s
  | _ => x
  end.

(** [Math.min]: NaN when either argument is NaN, and -0 below +0. *)
Definition Math_min (a b : spec_float) : spec_float :=
  match SFcompare a b with
  | None => S754_nan
  | Some Lt => a
  | Some Gt => b
  | Some Eq => match a with S754_zero true => a | _ => b end
  end.

(** [a > b]. *)
Definition gt (a b : spec_float) : bool := SFltb b a.

(** The integer a double stands for, when it is one. *)
Definition as_integer (x : spec_float) : option Z :=
  match x with
  | S754_zero _ => Some 0
  | S754_finite s m e =>
      if 0 <=? e then Some (cond_Zopp s (Zpos m) * 2 ^ e)
      else if (Zpos m mod 2 ^ (- e)) =? 0
           then Some (cond_Zopp s (Zpos m / 2 ^ (- e)))
           else None
  | _ => None
  end.

End Double.

(** [capacity || 1]: the divisor of the occupancy. *)
Definition capacity_or_1 (capacity_ : Z) : Z := JS.num_or (Some capacity_) 1.

(** [Math.min(100, Math.round((doorCount / (capacity || 1)) * 100))]. *)
Definition occupancy_of (doorCount_ capacity_ : Z) : spec_float :=
  Double.Math_min (Double.of_Z 100)
    (Double.Math_round
       (Double.mul
          (Double.div (Double.of_Z doorCount_) (Double.of_Z (capacity_or_1 capacity_)))
          (Double.of_Z 100))).

Definition occupancy (s : AppState) : spec_float :=
  occupancy_of (doorCount s) (capacity s).

(** The percentage shown, as an integer. *)
Definition occupancy_percent (s : AppState) : option Z :=
  Double.as_integer (occupancy s).

(** ** The component as a transition system *)

(** What can happen to a device between two renders. *)
Inductive Event :=
| Hydrated (stateData : option EventStateRow) (msgData : option (list Message))
| Subscribed (client : SupabaseClient) (newChannel : RealtimeChannel)
    (savedRole : option string) (envUrl : option bool)
| ConnectAttempt (url key : string)
| ConnectError (message : option string)
| SnapshotUpdate (newState : EventStateRow)
| MessageInsert (newMsg : Message)
| PresenceSync (state : gmap string (list UserPresence))
| Disconnect
| DoorChange (delta : Z)
| CapacityInput (value : string)
| FullReset
| RoleSelect (role_ : string)
| Release
| StationClick (station : Station)
| SendMessage (now : Date)
| TypeMessage (text : string)
| TypeReset (text : string)
| ShowResetView (v : bool)
| ShowNetworkModal (v : bool)
| ClearStation
| TypeWifiSSID (text : string)
| TypeWifiPass (text : string)
| WifiSave.

Definition step (e : Event) (s : AppState) : AppState :=
  match e with
  | Hydrated stateData msgData =>
      deliver (hydrate_state stateData ;; hydrate_messages msgData)%action s
  | Subscribed client newChannel savedRole envUrl =>
      state_after (on_subscribed client newChannel savedRole envUrl) s
  | ConnectAttempt url key => deliver (connect_guard url key skip) s
  | ConnectError message => deliver (on_connect_error message) s
  | SnapshotUpdate newState => deliver (on_event_state_update newState) s
  | MessageInsert newMsg => deliver (on_message_insert newMsg) s
  | PresenceSync state => deliver (on_presence_sync (deviceId s) state) s
  | Disconnect => state_after disconnect s
  | DoorChange delta => state_after (handleDoorChange delta) s
  | CapacityInput value => state_after (capacity_onChange value) s
  | FullReset => state_after handleFullReset s
  | RoleSelect role_ => state_after (handleRoleSelect role_) s
  | Release => state_after handleRelease s
  | StationClick station => state_after (handleStationClick station) s
  | SendMessage now => state_after (handleSendMessage now) s
  | TypeMessage text => deliver (setInputText text) s
  | TypeReset text => deliver (setResetInputText text) s
  | ShowResetView v => deliver (setShowResetView v) s
  | ShowNetworkModal v => deliver (setShowNetworkModal v) s
  | ClearStation => deliver (setSelectedStation None) s
  | TypeWifiSSID text => deliver (setWifiSSID text) s
  | TypeWifiPass text => deliver (setWifiPass text) s
  | WifiSave => state_after handleWifiSave s
  end.

(** The states a device whose identifier is [dev] can be in. *)
Inductive reachable (dev : string) : AppState -> Prop :=
| reachable_init : reachable dev (initialState dev)
| reachable_step e s : reachable dev s -> reachable dev (step e s).

(** A connected device holds its client. *)
Definition connected_has_client (s : AppState) : Prop :=
  isConnected s = true -> exists c, supabaseClient s = Some c.

(** ** Runs of local counter changes *)

(** The deltas applied one click after the other, each handler created by
    the render that follows the previous one. *)
Definition apply_deltas (deltas : list Z) (s : AppState) : AppState :=
  fold_left (fun st delta => state_after (handleDoorChange delta) st) deltas s.

Definition sum_deltas (deltas : list Z) : Z := fold_right Z.add 0 deltas.

(** The least value reached by the running sum that starts at [c], the
    start included. *)
Fixpoint lowest_prefix (c : Z) (deltas : list Z) : Z :=
  match deltas with
  | [] => c
  | d :: rest => Z.min c (lowest_prefix (c + d) rest)
  end.

(** The value the specification gives for a run of deltas. *)
Definition doorCount_spec (deltas : list Z) : Z := Z.max 0 (sum_deltas deltas).

(** ** The message log *)

(** How many entries of a log carry the identity [id]. *)
Definition occurrences (id : Z) (log : list Message) : nat :=
  length (filter (fun m => msg_id m = id) log).

(** The row the backend stores for an [insert] call and echoes to every
    subscriber, the sender included, under the identity it assigned. *)
Definition echo_of (id : Z) (c : BackendCall) : option Message :=
  match c with
  | InsertMessage time station text => Some (mkMessage id time station text)
  | _ => None
  end.

(** ** What the specification says, where it is compared with the code *)

(** The presence record the specification looks for: role
    ["Bout Coordinator"], on another device. *)
Definition is_other_coordinator_spec (self : string) (p : UserPresence) : bool :=
  String.eqb (role p) "Bout Coordinator" && negb (String.eqb (device_id p) self).

(** [n / m] rounded to the nearest integer, halves up, for [0 < m]. *)
Definition round_half_up (n m : Z) : Z := (2 * n + m) / (2 * m).

(** The occupancy of the specification:
    [min(100, round(100 * doorCount / max(1, capacity)))]. *)
Definition occupancy_spec (doorCount_ capacity_ : Z) : Z :=
  Z.min 100 (round_half_up (100 * doorCount_) (Z.max 1 capacity_)).

(** A mirror in the state of the first render. *)
Definition mirror_cleared (s : AppState) : Prop :=
  doorCount s = 0 /\ messages s = [] /\ capacity s = 300
  /\ wifiSSID s = "" /\ wifiPass s = "".

(** ** Sample states *)

(** A device that was told 299 of 300 by the backend. *)
Definition almost_full : AppState :=
  deliver (on_event_state_update (mkRow 299 300 None None)) (initialState "dev_a").

(** A connected device: client and channel in place. *)
Definition connected (dev : string) : AppState :=
  mkState dev "" 0 300 [] "" None
    (Some (mkClient "https://example.supabase.co" "anon"))
    (Some (mkChannel "public:room")) true false "" "" false false "" "".

(** A connected venue with its own capacity, WiFi, count and log. *)
Definition venue : AppState :=
  mkState "dev_a" "MERCH" 120 500
    [mkMessage 1 "7:02 PM" "BEER" "keg change"] "" None
    (Some (mkClient "https://example.supabase.co" "anon"))
    (Some (mkChannel "public:room")) true true "DerbyGuest" "jammer42" false true "" "".

(** A room in which device [dev_b] has claimed the coordinator role and
    announced it. *)
Definition room_with_coordinator : gmap string (list UserPresence) :=
  {[ "dev_b" := [mkPresence "ref-1" "dev_b" "Bout Coordinator" "2025-03-01T19:00:00.000Z"] ]}.

(** A backend table of [n] messages, oldest first. *)
Definition history (n : nat) : list Message :=
  map (fun i => mkMessage (Z.of_nat i) "7:00 PM" "TICKETS" "doors open") (List.seq 1 n).

(** The venue after typing into the message box and into the reset
    confirmation box ([setInputText] and [setResetInputText] are their
    [onChange]). *)
Definition venue_typing : AppState := deliver (setInputText "  need change  ") venue.
Definition venue_rset : AppState := deliver (setResetInputText "RSET") venue.
Definition venue_reset : AppState := deliver (setResetInputText "RESET") venue.

(** ** Local storage and the effects that run on mount *)

(** What a call does to [localStorage]; [getItem] is lookup, with [None]
    for [null]. *)
Definition storage_call (store : gmap string string) (c : BackendCall) : gmap string string :=
  match c with
  | LocalStorageSet key value => <[key := value]> store
  | LocalStorageRemove key => delete key store
  | _ => store
  end.

Definition storage_after (calls : list BackendCall) (store : gmap string string)
  : gmap string string :=
  fold_left storage_call calls store.

(** [v] as a condition, for a [getItem] or [process.env] result. *)
Definition truthy_opt (v : option string) : bool :=
  match v with
  | Some x => JS.truthy x
  | None => false
  end.

(** [a || b] for such a result [a]. *)
Definition js_or (a : option string) (b : string) : string :=
  if truthy_opt a then default b a else b.

(** [generateDeviceId]; [rnd] is [Math.random().toString(36).substr(2, 9)].
    The result is the identifier and the storage left behind. *)
Definition generateDeviceId (rnd : string) (store : gmap string string)
  : string * gmap string string :=
  let id := store !! "derby_device_id" in
  if negb (truthy_opt id)
  then let id' := String.app "dev_" rnd in
       (id', <["derby_device_id" := id']> store)
  else (default "" id, store).

(** The effect that loads the saved role on mount. *)
Definition load_saved_role (store : gmap string string) : Action :=
  let savedRole := store !! "derby_role" in
  if truthy_opt savedRole then setOperatorName (default "" savedRole) else skip.

(** The storage half of the effect on [operatorName, channel, deviceId]. *)
Definition persist_role_effect (snap : AppState) : Action :=
  if JS.truthy (operatorName snap)
  then call (LocalStorageSet "derby_role" (operatorName snap))
  else call (LocalStorageRemove "derby_role").

(** The whole effect: persist, then announce. *)
Definition role_effect (snap : AppState) : Action :=
  (persist_role_effect snap ;; presence_track_effect snap)%action.

(** The credentials effect that runs on mount. *)
Definition DEFAULT_URL : string := "https://rcfjdnzppdbrjjugzzza.supabase.co".
Definition DEFAULT_KEY : string := "sb_publishable_9VrqHhPhwkRDSS0YdVEUGg_m_lh9clC".

(** [process.env], [None] when [process] is undefined or has no [env]. *)
Definition env_var (env : option (gmap string string)) (name : string) : option string :=
  match env with
  | Some vars => vars !! name
  | None => None
  end.

Definition env_override (env : option (gmap string string)) (a b c : string)
    (fallback : string) : string :=
  if truthy_opt (env_var env a) || truthy_opt (env_var env b) || truthy_opt (env_var env c)
  then js_or (env_var env a) (js_or (env_var env b) (js_or (env_var env c) ""))
  else fallback.

Definition envUrl_of (env : option (gmap string string)) : string :=
  env_override env "SUPABASE_URL" "NEXT_PUBLIC_SUPABASE_URL" "VITE_SUPABASE_URL" DEFAULT_URL.

Definition envKey_of (env : option (gmap string string)) : string :=
  env_override env "SUPABASE_KEY" "NEXT_PUBLIC_SUPABASE_ANON_KEY" "VITE_SUPABASE_KEY" DEFAULT_KEY.

(** What the effect decides: the URL and key it puts in the form and
    passes to [connectToSupabase], or [None] when it opens the
    configuration modal instead. *)
Definition mount_credentials (env : option (gmap string string))
    (store : gmap string string) : option (string * string) :=
  let envUrl := envUrl_of env in
  let envKey := envKey_of env in
  if JS.truthy envUrl && JS.truthy envKey then Some (envUrl, envKey)
  else
    let savedUrl := store !! "supabase_url" in
    let savedKey := store !! "supabase_key" in
    if truthy_opt savedUrl && truthy_opt savedKey
    then Some (default "" savedUrl, default "" savedKey)
    else None.

(** The text handed to [QRCode.toDataURL], when the QR effect asks for
    one: the modal is shown and an SSID is set. *)
Definition qr_payload (ssid pass : string) : string :=
  String.app "WIFI:T:WPA;S:" (String.app ssid (String.app ";P:" (String.app pass ";;"))).

Definition qr_request (showWifiQr : bool) (s : AppState) : option string :=
  if showWifiQr && JS.truthy (wifiSSID s)
  then Some (qr_payload (wifiSSID s) (wifiPass s))
  else None.

(** ** More values derived at render time *)

(** [currentSender], the label of the badge beside the message box. *)
Definition currentSender (s : AppState) : string :=
  if negb (isAssigned s) then "ROLE"
  else if isCoordinator s
       then match selectedStation s with
            | Some st => station_name st
            | None => "COORDINATOR"
            end
       else operatorName s.

(** ** Vocabulary of the further properties *)

(** A run of events. *)
Definition run_events (events : list Event) (s : AppState) : AppState :=
  fold_left (fun st e => step e st) events s.

(** A station is selected only on the coordinator's device. *)
Definition selection_is_coordinators (s : AppState) : Prop :=
  selectedStation s <> None -> operatorName s = "Bout Coordinator".

(** Calls that go to the backend or the realtime channel, as opposed to
    [localStorage]. *)
Definition is_remote_call (c : BackendCall) : bool :=
  match c with
  | LocalStorageSet _ _ | LocalStorageRemove _ => false
  | _ => true
  end.

(** The handlers that write to the backend. *)
Definition writers (delta : Z) (value : string) (now : Date) : list (AppState -> Action) :=
  [handleDoorChange delta; capacity_onChange value; handleFullReset;
   handleSendMessage now; handleWifiSave; disconnect].

(** The row a notification carries when the backend holds what the
    mirror [s] shows. *)
Definition mirror_row (s : AppState) : EventStateRow :=
  mkRow (doorCount s) (capacity s) (Some (wifiSSID s)) (Some (wifiPass s)).


(** Strings without a given character. *)
Fixpoint lacks (c : ascii) (s : string) : bool :=
  match s with
  | EmptyString => true
  | String d r => negb (Ascii.eqb d c) && lacks c r
  end.

(** The times of a day. *)
Definition day_times : list Date :=
  flat_map (fun h => map (fun m => mkDate h m) (List.seq 0 60)) (List.seq 0 24).

(** Every record of a presence snapshot belongs to the device [self]. *)
Definition all_own (self : string) (state : gmap string (list UserPresence)) : bool :=
  forallb (forallb (fun p => String.eqb (device_id p) self)) (snd <$> map_to_list state).

(** A room in which only [dev_a] is present, as coordinator under either
    name. *)
Definition room_alone : gmap string (list UserPresence) :=
  {[ "dev_a" := [mkPresence "ref-1" "dev_a" "COORDINATOR" "2025-03-01T19:00:00.000Z";
                 mkPresence "ref-2" "dev_a" "Bout Coordinator" "2025-03-01T19:05:00.000Z"] ]}.

(** A time of day. *)
Definition valid_time (d : Date) : Prop :=
  (getHours d < 24)%nat /\ (getMinutes d < 60)%nat.



(** An event whose snapshot row, if it carries one, has a count of at
    least 0 and a capacity of at least 1. *)
Definition row_in_range (e : Event) : bool :=
  match e with
  | SnapshotUpdate row | Hydrated (Some row) _ =>
      (0 <=? door_count row) && (1 <=? row_capacity row)
  | _ => true
  end.

(** A device that holds no client, with a count, a log and the
    confirmation typed. *)
Definition unplugged_reset : AppState :=
  mkState "dev_a" "MERCH" 120 500
    [mkMessage 1 "7:02 PM" "BEER" "keg change"] "" None
    None None false true "DerbyGuest" "jammer42" false true "RESET" "".

(** A device that connected and typed the confirmation. *)
Definition reset_ready : AppState :=
  step (TypeReset "RESET")
    (step (Subscribed (mkClient "https://example.supabase.co" "anon")
             (mkChannel "public:room") None (Some false))
       (initialState "dev_a")).

(** An evening at the door. *)
Definition evening : list Event :=
  [Hydrated (Some (mkRow 42 300 None None)) (Some []);
   DoorChange (-50); CapacityInput "-7"; SnapshotUpdate (mkRow 10 250 None None);
   DoorChange 1; Disconnect].

(** * Properties *)

(** ** Basic facts about handlers *)

Ltac unfold_handlers :=
  unfold state_after, calls_of, run, deliver,
    capacity_onChange, handleRoleSelect,
    handleDoorChange, handleCapacityChange,
    handleFullReset, handleClaimBC, handleSendMessage, disconnect,
    handleRelease, handleStationClick, handleWifiSave,
    on_event_state_update, on_message_insert, on_presence_sync,
    on_subscribed, on_connect_error, connect_guard,
    hydrate_state, hydrate_messages,
    if_client, setMessages, setSelectedStation in *.

Ltac crush_state s := destruct s; simpl in *.

Lemma handleDoorChange_doorCount delta s :
  doorCount (state_after (handleDoorChange delta) s) = Z.max 0 (doorCount s + delta).
Proof. unfold_handlers. crush_state s. destruct supabaseClient0; reflexivity. Qed.

Lemma handleDoorChange_capacity delta s :
  capacity (state_after (handleDoorChange delta) s) = capacity s.
Proof. unfold_handlers. crush_state s. destruct supabaseClient0; reflexivity. Qed.

Lemma lowest_prefix_le c deltas : lowest_prefix c deltas <= c.
Proof. destruct deltas; simpl; lia. Qed.

Lemma lowest_prefix_shift a deltas :
  forall c, lowest_prefix (c + a) deltas = lowest_prefix c deltas + a.
Proof.
  induction deltas as [|d rest IH]; intros c; simpl; [reflexivity|].
  replace (c + a + d) with (c + d + a) by lia.
  rewrite IH. lia.
Qed.

Lemma apply_deltas_cons d rest s :
  apply_deltas (d :: rest) s = apply_deltas rest (state_after (handleDoorChange d) s).
Proof. reflexivity. Qed.

(** From any non-negative count: the floor is paid back once, by the
    deepest excursion of the running sum below zero. *)
Lemma apply_deltas_from deltas :
  forall s, 0 <= doorCount s ->
    doorCount (apply_deltas deltas s)
    = doorCount s + sum_deltas deltas - Z.min 0 (lowest_prefix (doorCount s) deltas).
Proof.
  induction deltas as [|d rest IH]; intros s Hs.
  - simpl. lia.
  - rewrite apply_deltas_cons, IH
      by (rewrite handleDoorChange_doorCount; lia).
    rewrite handleDoorChange_doorCount.
    change (sum_deltas (d :: rest)) with (d + sum_deltas rest).
    cbn [lowest_prefix].
    pose proof (lowest_prefix_le (doorCount s + d) rest) as Hle.
    destruct (Z.le_gt_cases 0 (doorCount s + d)) as [Hpos | Hneg].
    + rewrite Z.max_r by lia. lia.
    + rewrite Z.max_l by lia.
      pose proof (lowest_prefix_shift (doorCount s + d) rest 0) as Hshift.
      rewrite Z.add_0_l in Hshift. lia.
Qed.

Lemma lowest_prefix_le_sum deltas :
  forall c, lowest_prefix c deltas <= c + sum_deltas deltas.
Proof.
  induction deltas as [|d rest IH]; intros c.
  - simpl. lia.
  - change (sum_deltas (d :: rest)) with (d + sum_deltas rest).
    cbn [lowest_prefix]. specialize (IH (c + d)). lia.
Qed.

(** When the running sum never goes below zero the floor never acts. *)
Lemma apply_deltas_no_floor deltas s :
  doorCount s = 0 -> 0 <= lowest_prefix 0 deltas ->
  doorCount (apply_deltas deltas s) = doorCount_spec deltas.
Proof.
  intros H0 Hlow. rewrite apply_deltas_from by lia.
  rewrite H0. unfold doorCount_spec.
  pose proof (lowest_prefix_le_sum deltas 0). lia.
Qed.

(** ** Local counter changes *)

(** C2, as the code has it.  Starting from [doorCount = 0] and with no
    notification in between, a run of [handleDoorChange] leaves the sum of
    the deltas minus the least prefix sum of the run (the empty prefix
    included, so this is the sum itself when the running sum never goes
    negative); the result is never below [max(0, sum)]. *)
Theorem door_count_after_deltas (deltas : list Z) (s : AppState)
    (Hstart : doorCount s = 0) :
  doorCount (apply_deltas deltas s) = sum_deltas deltas - lowest_prefix 0 deltas
  /\ doorCount_spec deltas <= doorCount (apply_deltas deltas s).
Proof.
  rewrite apply_deltas_from by lia. rewrite Hstart.
  pose proof (lowest_prefix_le 0 deltas).
  pose proof (lowest_prefix_le_sum deltas 0).
  unfold doorCount_spec. lia.
Qed.

Lemma door_count_after_deltas_witness :
  doorCount (apply_deltas [2; -1; -3; 1] (initialState "dev_a"))
  = sum_deltas [2; -1; -3; 1] - lowest_prefix 0 [2; -1; -3; 1]
  /\ doorCount_spec [2; -1; -3; 1]
     <= doorCount (apply_deltas [2; -1; -3; 1] (initialState "dev_a")).
Proof.
  apply (door_count_after_deltas [2; -1; -3; 1] (initialState "dev_a")).
  reflexivity.
Defined.

(** C2, as the specification words it, fails: a decrement at zero is
    absorbed by the floor, so [-1] then [+1] leaves 1 where
    [max(0, sum)] is 0. *)
Lemma door_count_max_sum_counterexample :
  doorCount (initialState "dev_a") = 0
  /\ doorCount (apply_deltas [-1; 1] (initialState "dev_a")) = 1
  /\ doorCount_spec [-1; 1] = 0
  /\ doorCount (apply_deltas [-1; 1] (initialState "dev_a")) <> doorCount_spec [-1; 1].
Proof. repeat split; try reflexivity. vm_compute. discriminate. Qed.

(** C6.  The door counter is floored at zero and nothing else: capacity
    plays no part in [handleDoorChange].  From 299 of 300 one increment
    shows 300 with the over-capacity flag off, the next shows 301 with the
    flag on; the flag is [doorCount > capacity]. *)
Theorem door_count_not_clamped_to_capacity (s : AppState)
    (Hcount : doorCount s = 299) (Hcap : capacity s = 300) :
  let s1 := state_after (handleDoorChange 1) s in
  let s2 := state_after (handleDoorChange 1) s1 in
  (doorCount s1 = 300 /\ capacity s1 = 300 /\ isOverCapacity s1 = false)
  /\ (doorCount s2 = 301 /\ capacity s2 = 300 /\ isOverCapacity s2 = true)
  /\ (forall (t : AppState) (delta : Z),
        doorCount (state_after (handleDoorChange delta) t) = Z.max 0 (doorCount t + delta)
        /\ capacity (state_after (handleDoorChange delta) t) = capacity t)
  /\ (forall t : AppState, isOverCapacity t = true <-> doorCount t > capacity t).
Proof.
  intros s1 s2.
  assert (Hd1 : doorCount s1 = 300).
  { subst s1. rewrite handleDoorChange_doorCount. lia. }
  assert (Hc1 : capacity s1 = 300).
  { subst s1. rewrite handleDoorChange_capacity. exact Hcap. }
  assert (Hd2 : doorCount s2 = 301).
  { subst s2. rewrite handleDoorChange_doorCount. lia. }
  assert (Hc2 : capacity s2 = 300).
  { subst s2. rewrite handleDoorChange_capacity. exact Hc1. }
  repeat split; try assumption.
  - unfold isOverCapacity. rewrite Hd1, Hc1. reflexivity.
  - unfold isOverCapacity. rewrite Hd2, Hc2. reflexivity.
  - apply handleDoorChange_doorCount.
  - apply handleDoorChange_capacity.
  - unfold isOverCapacity. intros H. apply Z.ltb_lt in H. lia.
  - unfold isOverCapacity. intros H. apply Z.ltb_lt. lia.
Qed.

Lemma door_count_not_clamped_to_capacity_witness :
  let s1 := state_after (handleDoorChange 1) almost_full in
  let s2 := state_after (handleDoorChange 1) s1 in
  (doorCount s1 = 300 /\ capacity s1 = 300 /\ isOverCapacity s1 = false)
  /\ (doorCount s2 = 301 /\ capacity s2 = 300 /\ isOverCapacity s2 = true)
  /\ (forall (t : AppState) (delta : Z),
        doorCount (state_after (handleDoorChange delta) t) = Z.max 0 (doorCount t + delta)
        /\ capacity (state_after (handleDoorChange delta) t) = capacity t)
  /\ (forall t : AppState, isOverCapacity t = true <-> doorCount t > capacity t).
Proof.
  apply (door_count_not_clamped_to_capacity almost_full); reflexivity.
Defined.

(** ** Snapshot notifications *)

(** C3.  Delivering the same [event_state] notification twice in a row
    leaves the state, and with it the mirror of [doorCount], [capacity],
    [wifiSSID] and [wifiPass], as the first delivery left it. *)
Theorem snapshot_update_idempotent (newState : EventStateRow) (s : AppState) :
  let s1 := deliver (on_event_state_update newState) s in
  let s2 := deliver (on_event_state_update newState) s1 in
  s2 = s1
  /\ doorCount s2 = doorCount s1 /\ capacity s2 = capacity s1
  /\ wifiSSID s2 = wifiSSID s1 /\ wifiPass s2 = wifiPass s1.
Proof.
  assert (H : deliver (on_event_state_update newState)
                (deliver (on_event_state_update newState) s)
              = deliver (on_event_state_update newState) s).
  { unfold_handlers. destruct newState as [dc cap [ssid|] [pass|]];
      crush_state s; reflexivity. }
  cbv zeta. rewrite H. repeat split.
Qed.

(** ** Presence and the coordinator role *)

Section Presence.

Variable self : string.

Lemma scan_presences_existsb (presences : list UserPresence) :
  forall bcFound,
    scan_presences self presences bcFound
    = bcFound || existsb (is_other_coordinator self) presences.
Proof.
  unfold scan_presences.
  induction presences as [|p rest IH]; intros found; simpl.
  - now rewrite orb_false_r.
  - rewrite IH. destruct (is_other_coordinator self p), found; reflexivity.
Qed.

Lemma scan_values_existsb (values : list (list UserPresence)) :
  forall bcFound,
    fold_left (fun found presences => scan_presences self presences found) values bcFound
    = bcFound || existsb (existsb (is_other_coordinator self)) values.
Proof.
  induction values as [|ps rest IH]; intros found; simpl.
  - now rewrite orb_false_r.
  - rewrite IH, scan_presences_existsb. now rewrite orb_assoc.
Qed.

(** What the sync handler computes: some record of the snapshot has role
    ["COORDINATOR"] and belongs to another device. *)
Lemma scan_state_true (state : gmap string (list UserPresence)) :
  scan_state self state = true <->
  exists key presences p,
    state !! key = Some presences /\ p ∈ presences
    /\ role p = "COORDINATOR" /\ device_id p <> self.
Proof.
  unfold scan_state. rewrite scan_values_existsb, orb_false_l.
  rewrite existsb_exists. split.
  - intros (presences & Hin & Hex).
    apply list_elem_of_In, list_elem_of_fmap in Hin as ([key ps] & -> & Hkv).
    apply elem_of_map_to_list in Hkv.
    apply existsb_exists in Hex as (p & Hp & Htest).
    unfold is_other_coordinator in Htest.
    apply andb_true_iff in Htest as [Hrole Hdev].
    apply String.eqb_eq in Hrole.
    apply negb_true_iff, String.eqb_neq in Hdev.
    exists key, ps, p. repeat split; try assumption.
    now apply list_elem_of_In.
  - intros (key & presences & p & Hlook & Hp & Hrole & Hdev).
    exists presences. split.
    + apply list_elem_of_In, list_elem_of_fmap.
      exists (key, presences). split; [reflexivity|].
      now apply elem_of_map_to_list.
    + apply existsb_exists. exists p. split; [now apply list_elem_of_In|].
      unfold is_other_coordinator. apply andb_true_iff. split.
      * now apply String.eqb_eq.
      * now apply negb_true_iff, String.eqb_neq.
Qed.

End Presence.

Lemma handleClaimBC_operatorName s :
  operatorName (state_after handleClaimBC s) = "Bout Coordinator".
Proof. unfold_handlers. crush_state s. reflexivity. Qed.

(** Choosing a role never makes [operatorName] the string the sync
    handler looks for: the option value ["COORDINATOR"] is turned into
    ["Bout Coordinator"]. *)
Lemma handleRoleSelect_operatorName role_ s :
  operatorName s <> "COORDINATOR" ->
  operatorName (state_after (handleRoleSelect role_) s) <> "COORDINATOR".
Proof.
  intros Hs. unfold_handlers.
  destruct (JS.truthy role_); cbn [negb].
  - destruct (String.eqb role_ "COORDINATOR") eqn:E.
    + crush_state s. discriminate.
    + apply String.eqb_neq in E. crush_state s. exact E.
  - exact Hs.
Qed.

(** In a room where every announced role is an [operatorName] of that
    kind, the flag stays false. *)
Lemma scan_state_false self (state : gmap string (list UserPresence)) :
  (forall key presences p,
     state !! key = Some presences -> p ∈ presences -> role p <> "COORDINATOR") ->
  scan_state self state = false.
Proof.
  intros Hroles. apply not_true_is_false. intros Hscan.
  apply scan_state_true in Hscan as (key & presences & p & Hlook & Hp & Hrole & _).
  exact (Hroles key presences p Hlook Hp Hrole).
Qed.

(** C1 on the code.  A device that claims the coordinator role announces
    ["Bout Coordinator"]; a snapshot that holds such a record of another
    device leaves [otherCoordinatorOnline] false, because the sync handler
    looks for the role ["COORDINATOR"]. *)
Theorem other_coordinator_not_detected :
  calls_of presence_track_effect (state_after handleClaimBC (connected "dev_b"))
  = [Track "dev_b" "Bout Coordinator"]
  /\ (exists key presences p,
        room_with_coordinator !! key = Some presences /\ p ∈ presences
        /\ is_other_coordinator_spec "dev_a" p = true)
  /\ otherCoordinatorOnline
       (deliver (on_presence_sync "dev_a" room_with_coordinator) (connected "dev_a"))
     = false.
Proof.
  split; [reflexivity|]. split.
  - exists "dev_b", [mkPresence "ref-1" "dev_b" "Bout Coordinator" "2025-03-01T19:00:00.000Z"],
      (mkPresence "ref-1" "dev_b" "Bout Coordinator" "2025-03-01T19:00:00.000Z").
    split; [reflexivity|]. split; [apply list_elem_of_here | reflexivity].
  - vm_compute. reflexivity.
Qed.

(** ** The message log *)

Lemma occurrences_app id log1 log2 :
  occurrences id (log1 ++ log2) = (occurrences id log1 + occurrences id log2)%nat.
Proof. unfold occurrences. now rewrite filter_app, length_app. Qed.

Lemma occurrences_same m : occurrences (msg_id m) [m] = 1%nat.
Proof.
  unfold occurrences. rewrite filter_cons_True by reflexivity. reflexivity.
Qed.

Lemma on_message_insert_messages newMsg s :
  messages (deliver (on_message_insert newMsg) s) = messages s ++ [newMsg].
Proof. unfold_handlers. crush_state s. reflexivity. Qed.

Lemma handleSendMessage_messages now s :
  messages (state_after (handleSendMessage now) s) = messages s.
Proof.
  unfold_handlers. destruct (JS.truthy (JS.trim (inputText s)));
    crush_state s; [destruct supabaseClient0|]; reflexivity.
Qed.

(** C4.  Sending leaves the local log as it is and issues one [insert];
    the echo of that insert, under an identity no logged message has, is
    appended by the [INSERT] handler, after which the log holds the sent
    message exactly once. *)
Theorem sent_message_appears_once (now : Date) (s : AppState)
    (c : SupabaseClient) (id : Z)
    (Hclient : supabaseClient s = Some c)
    (Htext : JS.truthy (JS.trim (inputText s)) = true)
    (Hfresh : occurrences id (messages s) = 0%nat) :
  let s1 := state_after (handleSendMessage now) s in
  let sent := InsertMessage (timeStr now) (sender_of s) (JS.trim (inputText s)) in
  let echo := mkMessage id (timeStr now) (sender_of s) (JS.trim (inputText s)) in
  let s2 := deliver (on_message_insert echo) s1 in
  calls_of (handleSendMessage now) s = [sent]
  /\ echo_of id sent = Some echo
  /\ messages s1 = messages s
  /\ messages s2 = messages s ++ [echo]
  /\ occurrences id (messages s2) = 1%nat.
Proof.
  intros s1 sent echo s2.
  assert (Hlog1 : messages s1 = messages s) by apply handleSendMessage_messages.
  assert (Hlog2 : messages s2 = messages s ++ [echo]).
  { subst s2. now rewrite on_message_insert_messages, Hlog1. }
  repeat split; try assumption.
  - unfold_handlers. rewrite Htext, Hclient. crush_state s. reflexivity.
  - rewrite Hlog2, occurrences_app, Hfresh. apply (occurrences_same echo).
Qed.

Lemma sent_message_appears_once_witness :
  let now := mkDate 19 5 in
  let s1 := state_after (handleSendMessage now) venue_typing in
  let sent := InsertMessage "7:05 PM" "MERCH" "need change" in
  let echo := mkMessage 2 "7:05 PM" "MERCH" "need change" in
  let s2 := deliver (on_message_insert echo) s1 in
  calls_of (handleSendMessage now) venue_typing = [sent]
  /\ echo_of 2 sent = Some echo
  /\ messages s1 = messages venue_typing
  /\ messages s2 = messages venue_typing ++ [echo]
  /\ occurrences 2 (messages s2) = 1%nat.
Proof.
  apply (sent_message_appears_once (mkDate 19 5) venue_typing
           (mkClient "https://example.supabase.co" "anon") 2); reflexivity.
Defined.

(** ** Reset *)

(** The reset controls are rendered only while [isConnected]; in every
    state a device can reach, a connected device holds its client. *)
Lemma step_connected_has_client e s :
  connected_has_client s -> connected_has_client (step e s).
Proof.
  unfold connected_has_client.
  destruct s, e; unfold step; unfold_handlers; cbn;
    repeat match goal with
      | |- context [match ?x with _ => _ end] => is_var x; destruct x; cbn
      | |- context [match ?f ?x with _ => _ end] => is_var x; destruct x; cbn
      | |- context [if ?b then _ else _] => destruct b; cbn
      end;
    intros Hinv Hconn;
    first [ discriminate Hconn | exact (Hinv Hconn) | eexists; reflexivity ].
Qed.

Lemma reachable_connected_has_client dev s :
  reachable dev s -> connected_has_client s.
Proof.
  induction 1 as [|e s Hs IH].
  - intros H. discriminate H.
  - now apply step_connected_has_client.
Qed.

Lemma handleFullReset_calls t c :
  resetInputText t = "RESET" -> supabaseClient t = Some c ->
  calls_of handleFullReset t
  = [UpdateEventState (mkPatch (Some 0) None None None); DeleteAllMessages].
Proof.
  intros Hreset Hclient.
  unfold_handlers. rewrite Hreset, Hclient. crush_state t. reflexivity.
Qed.

Lemma handleFullReset_calls_offline t :
  resetInputText t = "RESET" -> supabaseClient t = None ->
  calls_of handleFullReset t = [].
Proof.
  intros Hreset Hclient.
  unfold_handlers. rewrite Hreset, Hclient. crush_state t. reflexivity.
Qed.

Lemma handleFullReset_local t :
  resetInputText t = "RESET" ->
  doorCount (state_after handleFullReset t) = 0
  /\ messages (state_after handleFullReset t) = [].
Proof.
  intros Hreset. unfold_handlers. rewrite Hreset. crush_state t.
  destruct supabaseClient0; split; reflexivity.
Qed.

(** Wherever the confirm button can be pressed, the two calls go out:
    an update that writes [door_count = 0] and no other column, then the
    delete of every message. *)
Lemma full_reset_calls_when_connected dev t :
  reachable dev t -> isConnected t = true -> resetInputText t = "RESET" ->
  calls_of handleFullReset t
  = [UpdateEventState (mkPatch (Some 0) None None None); DeleteAllMessages].
Proof.
  intros Hreach Hconn Hreset.
  destruct (reachable_connected_has_client dev t Hreach Hconn) as [c Hc].
  now apply (handleFullReset_calls t c).
Qed.

(** C5, as the code has it.  [handleFullReset] does nothing at all unless
    the confirmation text is exactly ["RESET"].  With it, the local count
    becomes 0 and the local log becomes empty on every device; a device
    that holds a client asks it to write [door_count = 0] and then to
    delete every message, and a device that holds none makes no call. *)
Theorem full_reset_gated (s t : AppState)
    (Hother : resetInputText s <> "RESET")
    (Hreset : resetInputText t = "RESET") :
  run handleFullReset s = (s, [])
  /\ doorCount (state_after handleFullReset t) = 0
  /\ messages (state_after handleFullReset t) = []
  /\ calls_of handleFullReset t
     = match supabaseClient t with
       | Some _ =>
           [UpdateEventState (mkPatch (Some 0) None None None); DeleteAllMessages]
       | None => []
       end.
Proof.
  destruct (handleFullReset_local t Hreset) as [Hcount Hlog].
  repeat split; try assumption.
  - unfold run, handleFullReset.
    apply String.eqb_neq in Hother. rewrite Hother. reflexivity.
  - destruct (supabaseClient t) as [c|] eqn:Hclient.
    + now apply (handleFullReset_calls t c).
    + now apply handleFullReset_calls_offline.
Qed.

Lemma full_reset_gated_witness :
  run handleFullReset venue_rset = (venue_rset, [])
  /\ doorCount (state_after handleFullReset venue_reset) = 0
  /\ messages (state_after handleFullReset venue_reset) = []
  /\ calls_of handleFullReset venue_reset
     = match supabaseClient venue_reset with
       | Some _ =>
           [UpdateEventState (mkPatch (Some 0) None None None); DeleteAllMessages]
       | None => []
       end.
Proof.
  apply (full_reset_gated venue_rset venue_reset); [discriminate | reflexivity].
Defined.

(** C5, as the specification words it, fails on a device that holds no
    client: with ["RESET"] typed the count and the log are cleared
    locally, but neither the [door_count] update nor the delete is
    issued. *)
Lemma full_reset_offline_counterexample :
  resetInputText unplugged_reset = "RESET"
  /\ doorCount unplugged_reset = 120
  /\ doorCount (state_after handleFullReset unplugged_reset) = 0
  /\ messages (state_after handleFullReset unplugged_reset) = []
  /\ calls_of handleFullReset unplugged_reset = []
  /\ ~ In DeleteAllMessages (calls_of handleFullReset unplugged_reset)
  /\ ~ In (UpdateEventState (mkPatch (Some 0) None None None))
         (calls_of handleFullReset unplugged_reset).
Proof.
  repeat split; try reflexivity; intros H; exact H.
Qed.

(** ** Appending to the log *)

Lemma recent_messages_oldest_first (table : list Message) :
  rev (recent_messages table) = skipn (length table - 50) table.
Proof. unfold recent_messages. now rewrite firstn_rev, rev_involutive. Qed.

(** C7.  An [INSERT] notification appends its message at the end of the
    log, whatever the log holds: one entry more, the new message last, the
    earlier entries untouched.  Seeded from a table of at least 50 rows,
    the log is the newest 50 rows, oldest first, and has 51 entries after
    one notification. *)
Theorem insert_appends_at_end (table : list Message) (newMsg : Message) (s : AppState)
    (Htable : (50 <= length table)%nat) :
  let s0 := deliver (hydrate_messages (Some (recent_messages table))) s in
  let s1 := deliver (on_message_insert newMsg) s0 in
  (messages s0 = skipn (length table - 50) table /\ length (messages s0) = 50%nat)
  /\ (length (messages s1) = 51%nat /\ last (messages s1) = Some newMsg
      /\ firstn 50 (messages s1) = messages s0)
  /\ (forall t : AppState,
        let t1 := deliver (on_message_insert newMsg) t in
        messages t1 = messages t ++ [newMsg]
        /\ length (messages t1) = S (length (messages t))
        /\ last (messages t1) = Some newMsg
        /\ firstn (length (messages t)) (messages t1) = messages t).
Proof.
  intros s0 s1.
  assert (Hgen : forall t : AppState,
            let t1 := deliver (on_message_insert newMsg) t in
            messages t1 = messages t ++ [newMsg]
            /\ length (messages t1) = S (length (messages t))
            /\ last (messages t1) = Some newMsg
            /\ firstn (length (messages t)) (messages t1) = messages t).
  { intros t t1. subst t1. rewrite on_message_insert_messages.
    repeat split.
    - rewrite length_app. simpl. lia.
    - apply last_snoc.
    - rewrite firstn_app, Nat.sub_diag, firstn_all. simpl. apply app_nil_r. }
  assert (Hseed : messages s0 = skipn (length table - 50) table).
  { subst s0. unfold_handlers. crush_state s.
    apply recent_messages_oldest_first. }
  assert (Hlen : length (messages s0) = 50%nat).
  { rewrite Hseed, length_skipn. lia. }
  destruct (Hgen s0) as (Happ & Hlen1 & Hlast & Hfirst).
  fold s1 in Happ, Hlen1, Hlast, Hfirst.
  repeat split; try assumption.
  - rewrite Hlen1, Hlen. reflexivity.
  - rewrite <- Hlen at 1. exact Hfirst.
  - apply Hgen.
  - apply Hgen.
  - apply Hgen.
  - apply Hgen.
Qed.

Lemma insert_appends_at_end_witness :
  let newMsg := mkMessage 61 "9:15 PM" "BEER" "last call" in
  let s0 := deliver (hydrate_messages (Some (recent_messages (history 60))))
              (connected "dev_a") in
  let s1 := deliver (on_message_insert newMsg) s0 in
  (messages s0 = skipn (length (history 60) - 50) (history 60)
   /\ length (messages s0) = 50%nat)
  /\ (length (messages s1) = 51%nat /\ last (messages s1) = Some newMsg
      /\ firstn 50 (messages s1) = messages s0)
  /\ (forall t : AppState,
        let t1 := deliver (on_message_insert newMsg) t in
        messages t1 = messages t ++ [newMsg]
        /\ length (messages t1) = S (length (messages t))
        /\ last (messages t1) = Some newMsg
        /\ firstn (length (messages t)) (messages t1) = messages t).
Proof.
  apply (insert_appends_at_end (history 60)
           (mkMessage 61 "9:15 PM" "BEER" "last call") (connected "dev_a")).
  vm_compute. lia.
Defined.

(** ** Capacity *)

Lemma capacity_onChange_capacity value s :
  capacity (state_after (capacity_onChange value) s)
  = Z.max 1 (JS.num_or (ParseInt.parseInt value) 0).
Proof. unfold_handlers. crush_state s. destruct supabaseClient0; reflexivity. Qed.

Lemma on_event_state_update_capacity newState s :
  capacity (deliver (on_event_state_update newState) s) = row_capacity newState.
Proof.
  unfold_handlers. destruct newState as [dc cap [ssid|] [pass|]];
    crush_state s; reflexivity.
Qed.

(** C8, as the code has it.  The capacity typed into the input reaches
    the mirror clamped to at least 1, whatever was typed; a snapshot
    notification, like the row read on connect, puts the backend's
    capacity into the mirror as it is. *)
Theorem capacity_writes (value : string) (newState : EventStateRow) (s : AppState) :
  1 <= capacity (state_after (capacity_onChange value) s)
  /\ capacity (deliver (on_event_state_update newState) s) = row_capacity newState
  /\ capacity (deliver (hydrate_state (Some newState)) s) = row_capacity newState.
Proof.
  split; [|split].
  - rewrite capacity_onChange_capacity. unfold JS.Math_max. lia.
  - apply on_event_state_update_capacity.
  - unfold deliver, hydrate_state.
    destruct newState as [dc cap [ssid|] [pass|]]; cbn [wifi_ssid wifi_pass];
      repeat match goal with |- context [JS.truthy ?v] => destruct (JS.truthy v) end;
      crush_state s; reflexivity.
Qed.

(** C8, as the specification words it, fails on the remote path: a
    notification whose row has capacity 0 takes a mirror that held 300
    to 0. *)
Lemma remote_capacity_counterexample :
  1 <= capacity (initialState "dev_a")
  /\ capacity (deliver (on_event_state_update (mkRow 5 0 None None)) (initialState "dev_a")) = 0
  /\ ~ 1 <= capacity (deliver (on_event_state_update (mkRow 5 0 None None))
                        (initialState "dev_a")).
Proof.
  split; [|split].
  - change (1 <= 300). lia.
  - reflexivity.
  - rewrite on_event_state_update_capacity. cbn [row_capacity]. lia.
Qed.

(** ** Disconnect *)

(** C9, as the code has it.  [disconnect] drops the client and the
    channel, marks the device disconnected, zeroes the count and empties
    the log; capacity and the WiFi credentials keep their values. *)
Theorem disconnect_clears_count_and_log (s : AppState) :
  let s' := state_after disconnect s in
  (isConnected s' = false /\ supabaseClient s' = None /\ channel s' = None)
  /\ (doorCount s' = 0 /\ messages s' = [])
  /\ (capacity s' = capacity s /\ wifiSSID s' = wifiSSID s /\ wifiPass s' = wifiPass s).
Proof.
  unfold_handlers. crush_state s. destruct supabaseClient0; repeat split.
Qed.

(** C9, as the specification words it, fails: a venue with capacity 500
    and WiFi credentials still has them after [disconnect]. *)
Lemma disconnect_keeps_capacity_counterexample :
  capacity (state_after disconnect venue) = 500
  /\ wifiSSID (state_after disconnect venue) = "DerbyGuest"
  /\ wifiPass (state_after disconnect venue) = "jammer42"
  /\ ~ mirror_cleared (state_after disconnect venue).
Proof.
  repeat split. intros (_ & _ & Hcap & _). vm_compute in Hcap. discriminate Hcap.
Qed.

(** ** Occupancy *)

Lemma Math_min_not_above (a b : spec_float) :
  SFltb a a = false -> Double.gt (Double.Math_min a b) a = false.
Proof.
  intros Hirr. unfold Double.gt, Double.Math_min.
  destruct (SFcompare a b) as [[| |]|] eqn:Hcmp.
  - destruct a as [[|]| | |]; try (unfold SFltb; now rewrite Hcmp).
    exact Hirr.
  - exact Hirr.
  - unfold SFltb. now rewrite Hcmp.
  - destruct a; reflexivity.
Qed.

(** Scenario A: a device hydrated with 42 of 300 shows 14%. *)
Lemma occupancy_after_hydration :
  let s := deliver (hydrate_state (Some (mkRow 42 300 None None))) (initialState "dev_a") in
  doorCount s = 42 /\ capacity s = 300 /\ occupancy_percent s = Some 14.
Proof. repeat split; vm_compute; reflexivity. Qed.

Lemma occupancy_over_capacity_example :
  Double.as_integer (occupancy_of 300 300) = Some 100
  /\ Double.as_integer (occupancy_of 301 300) = Some 100
  /\ Double.as_integer (occupancy_of 5 0) = Some 100.
Proof. repeat split; vm_compute; reflexivity. Qed.

(** C10, as the code has it.  The divisor is the capacity, with 1 in
    place of 0 only, so it is never zero and a capacity of 0 gives what a
    capacity of 1 gives; the percentage is [Math.min(100, ...)] of a
    binary64 computation and is never above 100. *)
Theorem occupancy_bounded (doorCount_ capacity_ : Z) :
  capacity_or_1 capacity_ <> 0
  /\ capacity_or_1 capacity_ = (if capacity_ =? 0 then 1 else capacity_)
  /\ occupancy_of doorCount_ 0 = occupancy_of doorCount_ 1
  /\ Double.gt (occupancy_of doorCount_ capacity_) (Double.of_Z 100) = false.
Proof.
  split; [|split; [|split]].
  - unfold capacity_or_1, JS.num_or.
    destruct (capacity_ =? 0) eqn:E; [lia | apply Z.eqb_neq in E; exact E].
  - reflexivity.
  - reflexivity.
  - apply Math_min_not_above. reflexivity.
Qed.

(** C10, as the specification words it, fails.  The percentage is
    computed on doubles as [(doorCount / capacity) * 100]: 23 of 40 gives
    57.49999999999999 and shows 57, where the exact value 57.5 rounds to
    58.  And a negative capacity is used as it is, not raised to 1: 1 of
    -1 shows -100, where [max(1, capacity)] gives 100. *)
Lemma occupancy_formula_counterexample :
  (Double.as_integer (occupancy_of 23 40) = Some 57 /\ occupancy_spec 23 40 = 58)
  /\ (Double.as_integer (occupancy_of 1 (-1)) = Some (-100) /\ occupancy_spec 1 (-1) = 100)
  /\ occupancy_of 23 40 <> Double.of_Z (occupancy_spec 23 40).
Proof.
  split; [split; vm_compute; reflexivity|].
  split; [split; vm_compute; reflexivity|].
  vm_compute. discriminate.
Qed.

(** * Further properties of the component *)

(** ** Identity, saved role and credentials *)

Lemma truthy_app_dev rnd : JS.truthy (String.app "dev_" rnd) = true.
Proof. reflexivity. Qed.

(** X1.  The device identifier is stable: whatever the storage held and
    whatever the random draws are, a second call returns the identifier of
    the first and leaves the storage as the first left it; the identifier
    is never empty and is what the storage holds. *)
Theorem device_id_stable (rnd1 rnd2 : string) (store : gmap string string) :
  let '(id, store1) := generateDeviceId rnd1 store in
  generateDeviceId rnd2 store1 = (id, store1)
  /\ store1 !! "derby_device_id" = Some id
  /\ JS.truthy id = true.
Proof.
  unfold generateDeviceId.
  destruct (store !! "derby_device_id") as [id|] eqn:Hid; cbn [truthy_opt negb].
  - destruct (JS.truthy id) eqn:Ht; cbn [negb default].
    + rewrite Hid. cbn [truthy_opt]. rewrite Ht. cbn [negb default]. auto.
    + rewrite lookup_insert_eq. cbn [truthy_opt]. rewrite truthy_app_dev.
      cbn [negb default]. auto.
  - rewrite lookup_insert_eq. cbn [truthy_opt]. rewrite truthy_app_dev.
    cbn [negb default]. auto.
Qed.

Lemma persist_role_storage s (store : gmap string string) :
  storage_after (calls_of persist_role_effect s) store !! "derby_role"
  = (if JS.truthy (operatorName s) then Some (operatorName s) else None).
Proof.
  unfold calls_of, run, persist_role_effect.
  destruct (JS.truthy (operatorName s)); cbn.
  - apply lookup_insert_eq.
  - apply lookup_delete_eq.
Qed.

(** X2.  The role survives a reload: after the role effect has run for a
    state, the mount effect of a fresh component reads the same
    [operatorName] back (none when it was empty), and the role announced
    by the [SUBSCRIBED] callback from storage is that [operatorName]. *)
Theorem saved_role_round_trip (s : AppState) (store : gmap string string)
    (dev : string) (client : SupabaseClient) (newChannel : RealtimeChannel)
    (envUrl : option bool) :
  let store' := storage_after (calls_of role_effect s) store in
  let fresh := deliver (load_saved_role store') (initialState dev) in
  operatorName fresh = operatorName s
  /\ In (Track dev (operatorName s))
        (calls_of (on_subscribed client newChannel (store' !! "derby_role") envUrl) fresh).
Proof.
  intros store' fresh.
  assert (Hrole : store' !! "derby_role"
                  = (if JS.truthy (operatorName s) then Some (operatorName s) else None)).
  { subst store'. unfold calls_of, run, role_effect, presence_track_effect,
      persist_role_effect.
    destruct (JS.truthy (operatorName s)), (channel s); cbn;
      first [apply lookup_insert_eq | apply lookup_delete_eq]. }
  assert (Hop : operatorName fresh = operatorName s).
  { subst fresh. unfold deliver, load_saved_role. rewrite Hrole.
    destruct (operatorName s) as [|c r]; reflexivity. }
  split; [exact Hop|].
  unfold calls_of, run, on_subscribed. rewrite Hrole.
  assert (Hdev : deviceId fresh = dev).
  { subst fresh. unfold deliver, load_saved_role.
    destruct (truthy_opt (store' !! "derby_role")); reflexivity. }
  rewrite Hdev.
  replace (default "" (if JS.truthy (operatorName s) then Some (operatorName s) else None))
    with (operatorName s) by (destruct (operatorName s); reflexivity).
  destruct fresh, envUrl as [[|]|]; cbn; auto.
Qed.

Lemma js_or_truthy a b :
  truthy_opt a || JS.truthy b = true -> JS.truthy (js_or a b) = true.
Proof.
  unfold js_or. destruct a as [x|]; cbn [truthy_opt default]; [|now intros].
  destruct (JS.truthy x) eqn:Hx; cbn; [now rewrite Hx | now intros].
Qed.

Lemma env_override_truthy env a b c fallback :
  JS.truthy fallback = true -> JS.truthy (env_override env a b c fallback) = true.
Proof.
  intros Hf. unfold env_override.
  destruct (truthy_opt (env_var env a)) eqn:Ha; cbn [orb].
  - apply js_or_truthy. now rewrite Ha.
  - destruct (truthy_opt (env_var env b)) eqn:Hb; cbn [orb].
    + apply js_or_truthy. rewrite (js_or_truthy (env_var env b)); [apply orb_true_r|].
      now rewrite Hb.
    + destruct (truthy_opt (env_var env c)) eqn:Hc; [|exact Hf].
      apply js_or_truthy.
      rewrite (js_or_truthy (env_var env b)); [apply orb_true_r|].
      rewrite (js_or_truthy (env_var env c)); [apply orb_true_r|].
      now rewrite Hc.
Qed.

(** X3.  The mount effect always finds credentials in the environment or
    in the built-in defaults: it never consults [localStorage], never
    opens the configuration modal, and the pair it passes is accepted by
    the guard of [connectToSupabase].  With no environment it is the
    default pair. *)
Theorem mount_always_connects (env : option (gmap string string))
    (store : gmap string string) (proceed : Action) :
  mount_credentials env store = Some (envUrl_of env, envKey_of env)
  /\ connect_guard (envUrl_of env) (envKey_of env) proceed = proceed
  /\ mount_credentials None store = Some (DEFAULT_URL, DEFAULT_KEY).
Proof.
  assert (Hu : JS.truthy (envUrl_of env) = true)
    by (apply env_override_truthy; reflexivity).
  assert (Hk : JS.truthy (envKey_of env) = true)
    by (apply env_override_truthy; reflexivity).
  split; [|split].
  - unfold mount_credentials. now rewrite Hu, Hk.
  - unfold connect_guard. now rewrite Hu, Hk.
  - reflexivity.
Qed.

Lemma storage_after_app calls1 calls2 (store : gmap string string) :
  storage_after (calls1 ++ calls2) store = storage_after calls2 (storage_after calls1 store).
Proof. unfold storage_after. apply fold_left_app. Qed.

Lemma disconnect_storage s (store : gmap string string) :
  storage_after (calls_of disconnect s) store
  = delete "supabase_key" (delete "supabase_url" store).
Proof.
  unfold calls_of, run, disconnect, if_client.
  destruct s as [? ? ? ? ? ? ? [cl|] ? ? ? ? ? ? ? ? ?]; reflexivity.
Qed.

Lemma on_subscribed_storage client newChannel savedRole envUrl s
    (store : gmap string string) :
  storage_after (calls_of (on_subscribed client newChannel savedRole envUrl) s) store
  = match envUrl with
    | Some false =>
        <["supabase_key" := client_key client]>
          (<["supabase_url" := client_url client]> store)
    | _ => store
    end.
Proof.
  unfold calls_of, run, on_subscribed. destruct s, envUrl as [[|]|]; reflexivity.
Qed.

(** X4.  Subscribing stores the credentials of the client only when
    [process] exists and its environment holds no [SUPABASE_URL]; with a
    [SUPABASE_URL], or with no [process] at all (the callback then throws
    before it reaches the storage), the storage is left as it was.
    [disconnect] removes both credentials and touches no other key, so
    the saved role and the device identifier survive it. *)
Theorem credentials_stored_then_cleared (client : SupabaseClient)
    (newChannel : RealtimeChannel) (savedRole : option string)
    (envUrl : option bool) (s t : AppState) (store : gmap string string) :
  let stored env :=
    storage_after (calls_of (on_subscribed client newChannel savedRole env) s) store in
  let cleared := storage_after (calls_of disconnect t) (stored envUrl) in
  (stored (Some false) !! "supabase_url" = Some (client_url client)
   /\ stored (Some false) !! "supabase_key" = Some (client_key client))
  /\ (stored (Some true) = store /\ stored None = store)
  /\ (cleared !! "supabase_url" = None /\ cleared !! "supabase_key" = None)
  /\ (forall key, key <> "supabase_url" -> key <> "supabase_key" ->
        cleared !! key = store !! key).
Proof.
  intros stored cleared.
  assert (Hcleared : cleared = delete "supabase_key" (delete "supabase_url" (stored envUrl))).
  { subst cleared. apply disconnect_storage. }
  assert (Hother : forall key, key <> "supabase_url" -> key <> "supabase_key" ->
                     stored envUrl !! key = store !! key).
  { intros key Hu Hk. subst stored. cbv beta. rewrite on_subscribed_storage.
    destruct envUrl as [[|]|]; try reflexivity.
    now rewrite !lookup_insert_ne by congruence. }
  split; [split|split; [|split; [split|]]].
  - subst stored. cbv beta. rewrite on_subscribed_storage.
    rewrite lookup_insert_ne by discriminate. apply lookup_insert_eq.
  - subst stored. cbv beta. rewrite on_subscribed_storage. apply lookup_insert_eq.
  - subst stored. split; cbv beta; apply on_subscribed_storage.
  - rewrite Hcleared. rewrite lookup_delete_ne by discriminate. apply lookup_delete_eq.
  - rewrite Hcleared. apply lookup_delete_eq.
  - intros key Hu Hk. rewrite Hcleared.
    rewrite !lookup_delete_ne by congruence. now apply Hother.
Qed.

(** ** The WiFi QR payload *)

Lemma app_lacks_split c a a' r r' :
  lacks c a = true -> lacks c a' = true ->
  String.app a (String c r) = String.app a' (String c r') -> a = a' /\ r = r'.
Proof.
  revert a'. induction a as [|x a IH]; intros [|y a'] Ha Ha' Heq; cbn in *.
  - inversion Heq. auto.
  - inversion Heq; subst. rewrite Ascii.eqb_refl in Ha'. discriminate.
  - inversion Heq; subst. rewrite Ascii.eqb_refl in Ha. discriminate.
  - apply andb_true_iff in Ha as [_ Ha]. apply andb_true_iff in Ha' as [_ Ha'].
    inversion Heq; subst. destruct (IH a' Ha Ha' H1) as [-> ->]. auto.
Qed.

Lemma app_length_string a b :
  String.length (String.app a b) = (String.length a + String.length b)%nat.
Proof.
  induction a as [|x a IH]; simpl; [reflexivity|].
  now rewrite IH.
Qed.

Lemma app_cancel_r a a' t : String.app a t = String.app a' t -> a = a'.
Proof.
  revert a'. induction a as [|x a IH]; intros [|y a'] Heq.
  - reflexivity.
  - apply (f_equal String.length) in Heq.
    rewrite !app_length_string in Heq. simpl in Heq. lia.
  - apply (f_equal String.length) in Heq.
    rewrite !app_length_string in Heq. simpl in Heq. lia.
  - simpl in Heq. inversion Heq; subst. f_equal. now apply IH.
Qed.

(** X5.  The QR payload identifies the credentials as long as the SSIDs
    hold no semicolon: two pairs with the same payload are the same pair.
    Nothing is escaped, so without that condition two different pairs
    can give one payload. *)
Theorem qr_payload_injective (ssid pass ssid' pass' : string)
    (Hssid : lacks ";" ssid = true) (Hssid' : lacks ";" ssid' = true)
    (Hsame : qr_payload ssid pass = qr_payload ssid' pass') :
  (ssid = ssid' /\ pass = pass')
  /\ qr_payload "a;P:b" "c" = qr_payload "a" "b;P:c".
Proof.
  split; [|reflexivity].
  unfold qr_payload in Hsame.
  apply (inj (String.app "WIFI:T:WPA;S:")) in Hsame.
  change (String.app ";P:" (String.app pass ";;"))
    with (String ";" (String.app "P:" (String.app pass ";;"))) in Hsame.
  change (String.app ";P:" (String.app pass' ";;"))
    with (String ";" (String.app "P:" (String.app pass' ";;"))) in Hsame.
  apply app_lacks_split in Hsame as [-> Hrest]; [|assumption|assumption].
  split; [reflexivity|].
  apply (inj (String.app "P:")) in Hrest.
  now apply app_cancel_r in Hrest.
Qed.

Lemma qr_payload_injective_witness :
  ("DerbyGuest" = "DerbyGuest" /\ "jammer42" = "jammer42")
  /\ qr_payload "a;P:b" "c" = qr_payload "a" "b;P:c".
Proof.
  apply (qr_payload_injective "DerbyGuest" "jammer42" "DerbyGuest" "jammer42");
    reflexivity.
Defined.

(** ** Hydration *)

(** X6.  The row read on connect and a notification carrying the same
    row give the same state when the row's WiFi columns are non-empty
    strings.  They differ on empty ones: the initial fetch keeps the
    WiFi fields it found, the notification blanks them. *)
Theorem hydration_agrees_with_notification (row : EventStateRow) (s : AppState)
    (ssid pass : string)
    (Hssid : wifi_ssid row = Some ssid) (Hpass : wifi_pass row = Some pass)
    (Hs : JS.truthy ssid = true) (Hp : JS.truthy pass = true) :
  deliver (hydrate_state (Some row)) s = deliver (on_event_state_update row) s
  /\ (forall (dc cap : Z) (t : AppState),
        let blank := mkRow dc cap (Some "") (Some "") in
        wifiSSID (deliver (hydrate_state (Some blank)) t) = wifiSSID t
        /\ wifiPass (deliver (hydrate_state (Some blank)) t) = wifiPass t
        /\ wifiSSID (deliver (on_event_state_update blank) t) = ""
        /\ wifiPass (deliver (on_event_state_update blank) t) = "").
Proof.
  split.
  - unfold deliver, hydrate_state, on_event_state_update.
    rewrite Hssid, Hpass, Hs, Hp. reflexivity.
  - intros dc cap t blank. subst blank. destruct t. repeat split.
Qed.

Lemma hydration_agrees_with_notification_witness :
  deliver (hydrate_state (Some (mkRow 42 300 (Some "DerbyGuest") (Some "jammer42"))))
    (initialState "dev_a")
  = deliver (on_event_state_update (mkRow 42 300 (Some "DerbyGuest") (Some "jammer42")))
      (initialState "dev_a")
  /\ (forall (dc cap : Z) (t : AppState),
        let blank := mkRow dc cap (Some "") (Some "") in
        wifiSSID (deliver (hydrate_state (Some blank)) t) = wifiSSID t
        /\ wifiPass (deliver (hydrate_state (Some blank)) t) = wifiPass t
        /\ wifiSSID (deliver (on_event_state_update blank) t) = ""
        /\ wifiPass (deliver (on_event_state_update blank) t) = "").
Proof.
  apply (hydration_agrees_with_notification
           (mkRow 42 300 (Some "DerbyGuest") (Some "jammer42"))
           (initialState "dev_a") "DerbyGuest" "jammer42"); reflexivity.
Defined.

Lemma hydrate_messages_messages rows s :
  messages (deliver (hydrate_messages (Some rows)) s) = rev rows.
Proof. unfold_handlers. crush_state s. reflexivity. Qed.

(** X7.  For a table of any length the seeded log is the table without
    its oldest rows: at most 50 entries, in table order, and the rows
    left out followed by the log are the table.  A table of up to 50
    rows is loaded whole. *)
Theorem hydrated_log_is_table_suffix (table : list Message) (s : AppState) :
  let log := messages (deliver (hydrate_messages (Some (recent_messages table))) s) in
  firstn (length table - 50) table ++ log = table
  /\ length log = Nat.min 50 (length table)
  /\ (if (length table <=? 50)%nat then log = table else length log = 50%nat).
Proof.
  intros log.
  assert (Hlog : log = skipn (length table - 50) table).
  { subst log. rewrite hydrate_messages_messages. apply recent_messages_oldest_first. }
  rewrite Hlog. split; [apply firstn_skipn|]. split.
  - rewrite length_skipn. lia.
  - destruct (Nat.leb_spec (length table) 50) as [Hle|Hgt].
    + replace (length table - 50)%nat with 0%nat by lia. reflexivity.
    + rewrite length_skipn. lia.
Qed.

(** ** Duplicate notifications *)

(** X8.  The [INSERT] handler keeps no record of what it has appended: a
    notification delivered [n] times adds [n] entries with its identity,
    whatever the log already holds. *)
Theorem insert_never_deduplicates (newMsg : Message) (n : nat) (s : AppState) :
  let s' := Nat.iter n (deliver (on_message_insert newMsg)) s in
  occurrences (msg_id newMsg) (messages s')
  = (n + occurrences (msg_id newMsg) (messages s))%nat
  /\ length (messages s') = (n + length (messages s))%nat.
Proof.
  cbv zeta. induction n as [|n [IHo IHl]]; [split; reflexivity|].
  rewrite Nat.iter_succ.
  rewrite on_message_insert_messages, occurrences_app, length_app, IHo, IHl.
  rewrite occurrences_same. cbn [length]. lia.
Qed.

(** ** Presence *)

Lemma own_records_not_counted self (presences : list UserPresence) :
  forallb (fun p => String.eqb (device_id p) self) presences = true ->
  existsb (is_other_coordinator self) presences = false.
Proof.
  induction presences as [|p rest IH]; cbn; [reflexivity|].
  intros H. apply andb_true_iff in H as [Hp Hrest].
  unfold is_other_coordinator at 1. rewrite Hp, andb_false_r. cbn. now apply IH.
Qed.

(** X9.  The sync handler never counts the device's own records: when
    every record of the snapshot carries this device's identifier the
    flag is cleared, whatever roles the records announce and whatever the
    flag was. *)
Theorem presence_ignores_own_records (self : string)
    (state : gmap string (list UserPresence)) (s : AppState)
    (Hown : all_own self state = true) :
  otherCoordinatorOnline (deliver (on_presence_sync self state) s) = false.
Proof.
  assert (Hscan : scan_state self state = false).
  { unfold scan_state. rewrite scan_values_existsb, orb_false_l.
    unfold all_own in Hown.
    induction (snd <$> map_to_list state) as [|ps rest IH]; cbn in *; [reflexivity|].
    apply andb_true_iff in Hown as [Hps Hrest].
    rewrite (own_records_not_counted self ps Hps). cbn. now apply IH. }
  unfold deliver, on_presence_sync. rewrite Hscan. destruct s. reflexivity.
Qed.

Lemma presence_ignores_own_records_witness :
  otherCoordinatorOnline
    (deliver (on_presence_sync "dev_a" room_alone)
       (deliver (setOtherCoordinatorOnline true) (connected "dev_a")))
  = false.
Proof.
  apply (presence_ignores_own_records "dev_a" room_alone). vm_compute. reflexivity.
Defined.

(** ** Working without a client *)

Lemma disconnect_supabaseClient s : supabaseClient (state_after disconnect s) = None.
Proof. unfold_handlers. crush_state s. destruct supabaseClient0; reflexivity. Qed.

Lemma offline_writers delta value now s :
  supabaseClient s = None ->
  Forall (fun h => existsb is_remote_call (calls_of h s) = false)
         (writers delta value now).
Proof.
  intros Hoff. unfold writers.
  repeat constructor; unfold_handlers; rewrite Hoff;
    repeat match goal with
      | |- context [if ?b then _ else _] => destruct b
      end;
    crush_state s; reflexivity.
Qed.

(** X10.  A device that holds no client sends nothing: none of the
    handlers that write to the backend issues a backend or channel call,
    and this is the case of every state [disconnect] leaves. *)
Theorem offline_sends_nothing (delta : Z) (value : string) (now : Date)
    (s : AppState) (Hoff : supabaseClient s = None) :
  Forall (fun h => existsb is_remote_call (calls_of h s) = false)
         (writers delta value now)
  /\ (forall t : AppState,
        Forall (fun h => existsb is_remote_call (calls_of h (state_after disconnect t)) = false)
               (writers delta value now)).
Proof.
  split; [now apply offline_writers|].
  intros t. apply offline_writers, disconnect_supabaseClient.
Qed.

Lemma offline_sends_nothing_witness :
  Forall (fun h => existsb is_remote_call (calls_of h (initialState "dev_a")) = false)
         (writers 1 "250" (mkDate 19 5))
  /\ (forall t : AppState,
        Forall (fun h => existsb is_remote_call (calls_of h (state_after disconnect t)) = false)
               (writers 1 "250" (mkDate 19 5))).
Proof.
  apply (offline_sends_nothing 1 "250" (mkDate 19 5) (initialState "dev_a")).
  reflexivity.
Defined.

(** ** Optimistic writes *)

Lemma self_echo_is_noop t : deliver (on_event_state_update (mirror_row t)) t = t.
Proof. destruct t. reflexivity. Qed.

(** X11.  With a client, each local change of the snapshot sends one
    update, and that update writes the changed columns, and no other,
    with exactly the values the mirror shows afterwards (for the
    capacity, a value of at least 1); a notification that carries the
    mirror's own values changes nothing. *)
Theorem optimistic_write_matches_mirror (delta : Z) (value : string)
    (s : AppState) (c : SupabaseClient) (Hclient : supabaseClient s = Some c) :
  calls_of (handleDoorChange delta) s
  = [UpdateEventState
       (mkPatch (Some (doorCount (state_after (handleDoorChange delta) s)))
          None None None)]
  /\ (calls_of (capacity_onChange value) s
      = [UpdateEventState
           (mkPatch None (Some (capacity (state_after (capacity_onChange value) s)))
              None None)]
      /\ 1 <= capacity (state_after (capacity_onChange value) s))
  /\ calls_of handleWifiSave s
     = [UpdateEventState
          (mkPatch None None
             (Some (wifiSSID (state_after handleWifiSave s)))
             (Some (wifiPass (state_after handleWifiSave s))))]
  /\ (forall t : AppState, deliver (on_event_state_update (mirror_row t)) t = t).
Proof.
  split; [|split; [split|split]].
  - unfold_handlers. rewrite Hclient. crush_state s. reflexivity.
  - unfold_handlers. rewrite Hclient. crush_state s. reflexivity.
  - rewrite capacity_onChange_capacity. lia.
  - unfold_handlers. rewrite Hclient. crush_state s. reflexivity.
  - apply self_echo_is_noop.
Qed.

Lemma optimistic_write_matches_mirror_witness :
  calls_of (handleDoorChange 1) venue
  = [UpdateEventState
       (mkPatch (Some (doorCount (state_after (handleDoorChange 1) venue)))
          None None None)]
  /\ (calls_of (capacity_onChange "0") venue
      = [UpdateEventState
           (mkPatch None (Some (capacity (state_after (capacity_onChange "0") venue)))
              None None)]
      /\ 1 <= capacity (state_after (capacity_onChange "0") venue))
  /\ calls_of handleWifiSave venue
     = [UpdateEventState
          (mkPatch None None
             (Some (wifiSSID (state_after handleWifiSave venue)))
             (Some (wifiPass (state_after handleWifiSave venue))))]
  /\ (forall t : AppState, deliver (on_event_state_update (mirror_row t)) t = t).
Proof.
  apply (optimistic_write_matches_mirror 1 "0" venue
           (mkClient "https://example.supabase.co" "anon")).
  reflexivity.
Defined.

(** ** Reset, once *)

(** X12.  A reset that went through clears its own confirmation: the
    text is emptied, the reset view and the configuration modal are
    closed, and pressing confirm again without retyping does nothing. *)
Theorem full_reset_is_one_shot (s : AppState) (Hreset : resetInputText s = "RESET") :
  let s' := state_after handleFullReset s in
  resetInputText s' = "" /\ showResetView s' = false /\ showNetworkModal s' = false
  /\ run handleFullReset s' = (s', []).
Proof.
  assert (H : resetInputText (state_after handleFullReset s) = ""
              /\ showResetView (state_after handleFullReset s) = false
              /\ showNetworkModal (state_after handleFullReset s) = false).
  { unfold_handlers. rewrite Hreset. crush_state s.
    destruct supabaseClient0; repeat split. }
  cbv zeta. destruct H as (Htext & Hview & Hmodal). repeat split; try assumption.
  unfold run at 1. unfold handleFullReset at 1. rewrite Htext. reflexivity.
Qed.

Lemma full_reset_is_one_shot_witness :
  let s' := state_after handleFullReset venue_reset in
  resetInputText s' = "" /\ showResetView s' = false /\ showNetworkModal s' = false
  /\ run handleFullReset s' = (s', []).
Proof. apply (full_reset_is_one_shot venue_reset). reflexivity. Defined.

(** ** Roles and the selected station *)

Lemma Station_eqb_refl st : Station_eqb st st = true.
Proof. destruct st; reflexivity. Qed.

Lemma Station_eqb_eq a b : Station_eqb a b = true -> a = b.
Proof. destruct a, b; (reflexivity || discriminate). Qed.

Lemma step_selection_is_coordinators e s :
  selection_is_coordinators s -> selection_is_coordinators (step e s).
Proof.
  unfold selection_is_coordinators.
  destruct s, e; unfold step; unfold_handlers; cbn;
    repeat match goal with
      | |- context [String.eqb ?a ?b] => destruct (String.eqb_spec a b); cbn
      | |- context [match ?x with _ => _ end] => is_var x; destruct x; cbn
      | |- context [match ?f ?x with _ => _ end] => is_var x; destruct x; cbn
      | |- context [if ?b then _ else _] => destruct b; cbn
      end;
    intros Hinv Hsel; first [ congruence | exact (Hinv Hsel) ].
Qed.

(** X13.  Only a coordinator has a station selected.  From the first
    render, with whatever role the mount effect loads from storage, no
    run of events reaches a state in which a station is selected and
    [operatorName] is not ["Bout Coordinator"]. *)
Theorem selection_only_for_coordinator (dev : string) (store : gmap string string)
    (events : list Event) :
  selection_is_coordinators
    (run_events events (deliver (load_saved_role store) (initialState dev))).
Proof.
  assert (Hstart : selection_is_coordinators
                     (deliver (load_saved_role store) (initialState dev))).
  { unfold selection_is_coordinators, deliver, load_saved_role.
    destruct (truthy_opt (store !! "derby_role")); cbn; congruence. }
  revert Hstart. generalize (deliver (load_saved_role store) (initialState dev)).
  induction events as [|e rest IH]; intros s Hs; [exact Hs|].
  apply IH, step_selection_is_coordinators, Hs.
Qed.

(** X14.  The coordinator addresses a station by clicking its card and
    returns to broadcasting by clicking it again: after claiming the role
    messages go out as ["COORDINATOR"], after one click as the station,
    after a second click as ["COORDINATOR"] again.  On any other device a
    click on a card changes nothing. *)
Theorem station_click_toggles (station : Station) (s t : AppState)
    (Hother : operatorName t <> "Bout Coordinator") :
  let s1 := state_after handleClaimBC s in
  let s2 := state_after (handleStationClick station) s1 in
  let s3 := state_after (handleStationClick station) s2 in
  sender_of s1 = "COORDINATOR"
  /\ (selectedStation s2 = Some station /\ sender_of s2 = station_name station)
  /\ (selectedStation s3 = None /\ sender_of s3 = "COORDINATOR")
  /\ run (handleStationClick station) t = (t, []).
Proof.
  cbv zeta. split; [|split; [|split]].
  - destruct s. reflexivity.
  - destruct s. split; reflexivity.
  - destruct s. unfold_handlers. cbn. rewrite Station_eqb_refl. split; reflexivity.
  - unfold run, handleStationClick.
    apply String.eqb_neq in Hother. rewrite Hother. reflexivity.
Qed.

Lemma station_click_toggles_witness :
  let s1 := state_after handleClaimBC (connected "dev_b") in
  let s2 := state_after (handleStationClick BEER) s1 in
  let s3 := state_after (handleStationClick BEER) s2 in
  sender_of s1 = "COORDINATOR"
  /\ (selectedStation s2 = Some BEER /\ sender_of s2 = station_name BEER)
  /\ (selectedStation s3 = None /\ sender_of s3 = "COORDINATOR")
  /\ run (handleStationClick BEER) venue = (venue, []).
Proof.
  apply (station_click_toggles BEER (connected "dev_b") venue). discriminate.
Defined.

(** X15.  The badge beside the message box names the sender: whenever a
    role is assigned, [currentSender] is the station that
    [handleSendMessage] puts on the message. *)
Theorem badge_names_the_sender (now : Date) (s : AppState) (c : SupabaseClient)
    (Hassigned : isAssigned s = true)
    (Hclient : supabaseClient s = Some c)
    (Htext : JS.truthy (JS.trim (inputText s)) = true) :
  currentSender s = sender_of s
  /\ calls_of (handleSendMessage now) s
     = [InsertMessage (timeStr now) (currentSender s) (JS.trim (inputText s))].
Proof.
  assert (Hbadge : currentSender s = sender_of s).
  { unfold currentSender, sender_of, isCoordinator. rewrite Hassigned. reflexivity. }
  split; [exact Hbadge|].
  rewrite Hbadge. unfold_handlers. rewrite Htext, Hclient. crush_state s. reflexivity.
Qed.

Lemma badge_names_the_sender_witness :
  currentSender venue_typing = sender_of venue_typing
  /\ calls_of (handleSendMessage (mkDate 19 5)) venue_typing
     = [InsertMessage (timeStr (mkDate 19 5)) (currentSender venue_typing)
          (JS.trim (inputText venue_typing))].
Proof.
  apply (badge_names_the_sender (mkDate 19 5) venue_typing
           (mkClient "https://example.supabase.co" "anon")); reflexivity.
Defined.

(** ** Blank messages *)









(** ** The station cards *)

Lemma getLastMessage_empty station s :
  messages s = [] -> getLastMessage station s = None.
Proof. intros H. unfold getLastMessage. rewrite H. reflexivity. Qed.

(** X17.  A station card shows the latest message of its station: in any
    state, after an [INSERT] notification the card of the message's
    station shows the new message and every other card shows what it
    showed; after [disconnect], and after typing ["RESET"] and
    confirming, every card is empty. *)
Theorem card_shows_latest_message (station : Station) (newMsg : Message) (s : AppState) :
  getLastMessage station (deliver (on_message_insert newMsg) s)
  = (if decide (msg_station newMsg = station_name station)
     then Some newMsg else getLastMessage station s)
  /\ getLastMessage station (state_after disconnect s) = None
  /\ getLastMessage station
       (state_after handleFullReset (deliver (setResetInputText "RESET") s))
     = None.
Proof.
  split; [|split].
  - unfold getLastMessage. rewrite on_message_insert_messages, filter_app.
    destruct (decide (msg_station newMsg = station_name station)) as [Heq|Hne].
    + rewrite filter_cons_True by exact Heq. apply last_snoc.
    + rewrite filter_cons_False by exact Hne. cbn. now rewrite app_nil_r.
  - apply getLastMessage_empty.
    unfold_handlers. crush_state s. destruct supabaseClient0; reflexivity.
  - apply getLastMessage_empty, handleFullReset_local.
    destruct s. reflexivity.
Qed.

(** ** Time labels *)

Lemma day_times_complete d : valid_time d -> In d day_times.
Proof.
  destruct d as [h m]. intros [Hh Hm]. cbn in Hh, Hm.
  unfold day_times. apply in_flat_map. exists h. split.
  - apply in_seq. lia.
  - apply in_map, in_seq. lia.
Qed.

Lemma NoDup_map_injective {A B} (f : A -> B) (l : list A) :
  NoDup (map f l) -> forall x y, In x l -> In y l -> f x = f y -> x = y.
Proof.
  induction l as [|a l IH]; intros Hnd x y Hx Hy Hxy; [destruct Hx|].
  cbn in Hnd. inversion Hnd as [|? ? Ha Hnd']; subst.
  destruct Hx as [<-|Hx], Hy as [<-|Hy].
  - reflexivity.
  - exfalso. apply Ha. rewrite Hxy. apply list_elem_of_In. now apply in_map.
  - exfalso. apply Ha. rewrite <- Hxy. apply list_elem_of_In. now apply in_map.
  - now apply (IH Hnd').
Qed.

Lemma timeStr_day_NoDup : NoDup (map timeStr day_times).
Proof. apply (bool_decide_unpack _). vm_compute. reflexivity. Qed.

(** X18.  Within a day the 12-hour label identifies the minute: two times
    with the same label are the same time, so midnight and noon, or a
    morning and an evening hour, are never shown alike. *)
Theorem timeStr_injective (a b : Date)
    (Ha : valid_time a) (Hb : valid_time b) (Hsame : timeStr a = timeStr b) :
  a = b.
Proof.
  apply (NoDup_map_injective timeStr day_times timeStr_day_NoDup);
    [now apply day_times_complete | now apply day_times_complete | exact Hsame].
Qed.

Lemma timeStr_injective_witness : mkDate 0 5 = mkDate 0 5.
Proof.
  apply (timeStr_injective (mkDate 0 5) (mkDate 0 5));
    [split; cbn; lia | split; cbn; lia | reflexivity].
Defined.

(** ** Typing a capacity *)









(** ** The mirror stays in range *)

Lemma capacity_onChange_doorCount value s :
  doorCount (state_after (capacity_onChange value) s) = doorCount s.
Proof. unfold_handlers. crush_state s. destruct supabaseClient0; reflexivity. Qed.

Lemma step_in_range e s :
  row_in_range e = true ->
  0 <= doorCount s /\ 1 <= capacity s ->
  0 <= doorCount (step e s) /\ 1 <= capacity (step e s).
Proof.
  intros He [Hd Hc].
  destruct e; cbn [step row_in_range] in *;
    try (rewrite handleDoorChange_doorCount, handleDoorChange_capacity; split; lia);
    try (rewrite capacity_onChange_doorCount, capacity_onChange_capacity; split; lia);
    repeat match type of He with
      | context [match ?x with _ => _ end] => is_var x; destruct x; cbn [row_in_range] in He
      end;
    try (cbn [door_count row_capacity] in He;
         apply andb_true_iff in He as [H1 H2];
         apply Z.leb_le in H1; apply Z.leb_le in H2);
    destruct s; unfold_handlers; cbn in *;
    repeat match goal with
      | |- context [match ?x with _ => _ end] => is_var x; destruct x; cbn in *
      | |- context [match ?f ?x with _ => _ end] => is_var x; destruct x; cbn in *
      | |- context [if ?b then _ else _] => destruct b; cbn in *
      end;
    split; lia.
Qed.

(** X20.  The mirror keeps a count of at least 0 and a capacity of at
    least 1 through any run of events, as long as every snapshot row the
    backend delivers is itself in that range: no local action takes the
    mirror out of it. *)
Theorem mirror_stays_in_range (dev : string) (events : list Event)
    (Hrows : forallb row_in_range events = true) :
  0 <= doorCount (run_events events (initialState dev))
  /\ 1 <= capacity (run_events events (initialState dev)).
Proof.
  assert (Hstart : 0 <= doorCount (initialState dev) /\ 1 <= capacity (initialState dev))
    by (cbn; lia).
  revert Hstart Hrows. generalize (initialState dev).
  induction events as [|e rest IH]; intros s Hs Hrows; [exact Hs|].
  cbn [forallb] in Hrows. apply andb_true_iff in Hrows as [He Hrest].
  apply (IH (step e s)); [now apply step_in_range | exact Hrest].
Qed.

Lemma mirror_stays_in_range_witness :
  0 <= doorCount (run_events evening (initialState "dev_a"))
  /\ 1 <= capacity (run_events evening (initialState "dev_a")).
Proof. apply (mirror_stays_in_range "dev_a" evening). reflexivity. Defined.

(** ** Reset from the interface *)

Lemma full_reset_calls_when_connected_witness :
  calls_of handleFullReset reset_ready
  = [UpdateEventState (mkPatch (Some 0) None None None); DeleteAllMessages].
Proof.
  apply (full_reset_calls_when_connected "dev_a" reset_ready);
    [apply reachable_step, reachable_step, reachable_init | reflexivity | reflexivity].
Defined.
